(** * Arweave uploader plugin: a shallow embedding of [src/main.ts]

    The plugin is glue code around three collaborators: the note-editing
    host, the markdown renderer and the storage-network client.  The
    embedding keeps the control flow of the methods of the plugin and of
    its modal (awaits in sequence, [try]/[catch], early returns) and takes
    the collaborators as records of functions.  Effects on the user interface
    and on the network are threaded through an explicit state. *)

From Stdlib Require Import List ZArith NArith Bool Ascii String Lia.
From Stdlib Require Import DecimalString Floats.
Import ListNotations.

Set Implicit Arguments.

(** ** JavaScript strings

    A JavaScript string is a sequence of UTF-16 code units; [length] is the
    number of code units.  Source literals are ASCII and are written with
    [lit]. *)

Definition code_unit := N.
Definition jsstring := list code_unit.

Definition lit (s : string) : jsstring :=
  map N_of_ascii (list_ascii_of_string s).

(** The double quote character, U+0022. *)
Definition dquote : jsstring := [34%N].
(** Line feed, U+000A: the template literal of [exportToHtml] spans lines. *)
Definition nl : jsstring := [10%N].

Fixpoint str_eqb (a b : jsstring) : bool :=
  match a, b with
  | [], [] => true
  | x :: a', y :: b' => N.eqb x y && str_eqb a' b'
  | _, _ => false
  end.

(** [s.startsWith(p)], on code units. *)
Fixpoint starts_with (p s : jsstring) : bool :=
  match p, s with
  | [], _ => true
  | x :: p', y :: s' => N.eqb x y && starts_with p' s'
  | _ :: _, [] => false
  end.

(** [s.includes(p)]: some suffix of [s] starts with [p]. *)
Fixpoint includes (p s : jsstring) : bool :=
  starts_with p s ||
  match s with
  | [] => false
  | _ :: s' => includes p s'
  end.

(** Number of positions of [s] at which [p] occurs. *)
Fixpoint occurrences (p s : jsstring) : nat :=
  (if starts_with p s then 1 else 0) +
  match s with
  | [] => 0
  | _ :: s' => occurrences p s'
  end.

(** Truthiness of a string: the empty string is the only falsy one. *)
Definition truthy_str (s : jsstring) : bool :=
  match s with [] => false | _ :: _ => true end.

(** *** [String.prototype.toLowerCase]

    Exact on every code unit that lowers to an ASCII letter: [A]-[Z], the
    Kelvin sign U+212A (to [k]) and U+0130 (to [i] followed by U+0307).
    The other non-ASCII units are kept: their lower-case forms are
    non-ASCII too, so they never decide a comparison with an ASCII key. *)
Definition lower_unit (c : code_unit) : jsstring :=
  if ((65 <=? c) && (c <=? 90))%N then [(c + 32)%N]
  else if (c =? 8490)%N then [107%N]
  else if (c =? 304)%N then [105%N; 775%N]
  else [c].

Definition toLowerCase (s : jsstring) : jsstring := flat_map lower_unit s.

Definition is_upper (c : code_unit) : bool := ((65 <=? c) && (c <=? 90))%N.

(** *** The regular expression [/png|jpg|jpeg|gif|bmp|svg/i]

    Without the [u] flag, case-insensitive matching compares the
    canonical (upper-case) forms of single code units, and a non-ASCII
    unit is never canonicalised to an ASCII one.  The pattern holds ASCII
    letters only, so canonicalising the ASCII range decides every
    comparison. *)
Definition canonicalize (c : code_unit) : code_unit :=
  if ((97 <=? c) && (c <=? 122))%N then (c - 32)%N else c.

(** One alternative of the pattern matched at the start of [s]. *)
Fixpoint match_here_ci (p s : jsstring) : bool :=
  match p, s with
  | [], _ => true
  | x :: p', y :: s' => N.eqb (canonicalize x) (canonicalize y) && match_here_ci p' s'
  | _ :: _, [] => false
  end.

(** The alternatives, in the order the pattern lists them. *)
Definition image_alternatives : list jsstring :=
  map lit ["png"; "jpg"; "jpeg"; "gif"; "bmp"; "svg"]%string.

(** [s.match(re)] is truthy when the unanchored pattern matches at some
    position of [s]. *)
Fixpoint regex_search (alts : list jsstring) (s : jsstring) : bool :=
  existsb (fun p => match_here_ci p s) alts ||
  match s with
  | [] => false
  | _ :: s' => regex_search alts s'
  end.

Definition matches_image_regex (extension : jsstring) : bool :=
  regex_search image_alternatives extension.

(** *** [String.prototype.replace] with a string pattern and a string
    replacement

    Only the first occurrence of the pattern is replaced.  The replacement
    text is a template: [$$] stands for a dollar sign, [$&] for the matched
    text, [$`] for the text before the match and [$'] for the text after
    it.  A string pattern has no capture groups, so [$1] and the like stay
    as they are written. *)
Fixpoint split_at_first (p s : jsstring) : option (jsstring * jsstring) :=
  if starts_with p s then Some ([], skipn (List.length p) s)
  else match s with
       | [] => None
       | c :: s' =>
           match split_at_first p s' with
           | Some (before, after) => Some (c :: before, after)
           | None => None
           end
       end.

Fixpoint GetSubstitution (matched before after template : jsstring) : jsstring :=
  match template with
  | [] => []
  | c :: rest =>
      if (c =? 36)%N then
        match rest with
        | [] => [c]
        | d :: rest' =>
            if (d =? 36)%N then 36%N :: GetSubstitution matched before after rest'
            else if (d =? 38)%N then matched ++ GetSubstitution matched before after rest'
            else if (d =? 96)%N then before ++ GetSubstitution matched before after rest'
            else if (d =? 39)%N then after ++ GetSubstitution matched before after rest'
            else c :: GetSubstitution matched before after rest
        end
      else c :: GetSubstitution matched before after rest
  end.

Definition replace (s pattern replacement : jsstring) : jsstring :=
  match split_at_first pattern s with
  | None => s
  | Some (before, after) =>
      before ++ GetSubstitution pattern before after replacement ++ after
  end.

(** *** UTF-8 size of a string

    The storage client turns a string payload into bytes with the
    platform's [TextEncoder]: one byte below U+0080, two below U+0800, four
    for a surrogate pair and three for any other unit (a lone surrogate is
    encoded as U+FFFD). *)
Definition is_high_surrogate (c : code_unit) : bool := ((55296 <=? c) && (c <=? 56319))%N.
Definition is_low_surrogate (c : code_unit) : bool := ((56320 <=? c) && (c <=? 57343))%N.

Fixpoint utf8_length (s : jsstring) : nat :=
  match s with
  | [] => 0
  | c :: s' =>
      if (c <? 128)%N then 1 + utf8_length s'
      else if (c <? 2048)%N then 2 + utf8_length s'
      else if is_high_surrogate c then
        match s' with
        | d :: s'' => if is_low_surrogate d then 4 + utf8_length s''
                      else 3 + utf8_length s'
        | [] => 3
        end
      else 3 + utf8_length s'
  end.

Definition is_ascii (s : jsstring) : bool := forallb (fun c => (c <? 128)%N) s.

(** *** Decimal rendering of an integer, as template literals print an
    integral number such as an HTTP status. *)
Definition decimal (z : Z) : jsstring :=
  lit (NilZero.string_of_int (Z.to_int z)).

(** ** JavaScript values

    Values as [JSON.parse] and the property lookups of the source produce
    them.  [VNative] is a built-in function or object of the platform,
    which a lookup on an object literal reaches through [Object.prototype]. *)
#[local] Set Warnings "-register-all".
Inductive jsval : Type :=
| VUndefined
| VNull
| VBool (b : bool)
| VNum (x : float)
| VStr (s : jsstring)
| VArr (items : list jsval)
| VObj (fields : list (jsstring * jsval))
| VNative (name : jsstring).

Definition is_nan_or_zero (x : float) : bool :=
  match PrimFloat.classify x with
  | FloatClass.NaN | FloatClass.PZero | FloatClass.NZero => true
  | _ => false
  end.

Definition truthy (v : jsval) : bool :=
  match v with
  | VUndefined | VNull => false
  | VBool b => b
  | VNum x => negb (is_nan_or_zero x)
  | VStr s => truthy_str s
  | VArr _ | VObj _ | VNative _ => true
  end.

(** [a || b] *)
Definition js_or (a b : jsval) : jsval := if truthy a then a else b.

Fixpoint assoc (k : jsstring) (fields : list (jsstring * jsval)) : option jsval :=
  match fields with
  | [] => None
  | (k', v) :: rest => if str_eqb k k' then Some v else assoc k rest
  end.

(** The property names every object inherits from [Object.prototype]. *)
Definition Object_prototype_names : list jsstring :=
  map lit ["constructor"; "__defineGetter__"; "__defineSetter__";
           "hasOwnProperty"; "__lookupGetter__"; "__lookupSetter__";
           "isPrototypeOf"; "propertyIsEnumerable"; "toString"; "valueOf";
           "__proto__"; "toLocaleString"]%string.

(** [obj[key]] on an object literal: own properties first, then the
    prototype chain, then [undefined]. *)
Definition object_get (fields : list (jsstring * jsval)) (key : jsstring) : jsval :=
  match assoc key fields with
  | Some v => v
  | None =>
      if existsb (str_eqb key) Object_prototype_names then VNative key
      else VUndefined
  end.

(** *** Numbers

    Numbers are IEEE 754 binary64 values, here the primitive floats.
    [Math.round] gives the integer nearest to its argument, a tie going
    up; the sum with one half is taken exactly, on the mantissa and the
    exponent, and a result of zero keeps the argument's sign. *)
Definition Math_round (x : float) : float :=
  match Prim2SF x with
  | S754_finite neg m e =>
      if (0 <=? e)%Z then x
      else
        let k := (- e)%Z in
        let signed := if neg then Z.neg m else Z.pos m in
        let n := ((2 * signed + 2 ^ k) / 2 ^ (k + 1))%Z in
        let magnitude := PrimFloat.of_uint63 (Uint63.of_Z (Z.abs n)) in
        if (n <? 0)%Z then PrimFloat.opp magnitude
        else if (n =? 0)%Z then (if neg then (-0)%float else 0%float)
        else magnitude
  | _ => x
  end.

(** ** Exceptions

    A thrown value is an error object with a name and a message;
    concatenating it to a string prints both, as [Error.prototype.toString]
    does. *)
Record JsError : Type := mkError { err_name : jsstring; err_message : jsstring }.

Definition error_toString (e : JsError) : jsstring :=
  match err_name e, err_message e with
  | [], m => m
  | n, [] => n
  | n, m => n ++ lit ": " ++ m
  end.

(** [new Error(message)] *)
Definition Error (message : jsstring) : JsError := mkError (lit "Error") message.
Definition TypeError (message : jsstring) : JsError := mkError (lit "TypeError") message.

Inductive result (A : Type) : Type :=
| Ok (a : A)
| Throw (e : JsError).
Arguments Ok {A} a.
Arguments Throw {A} e.

(** ** The collaborators *)

(** *** The note-editing host *)
Record TFile : Type := {
  path : jsstring;
  name : jsstring;
  basename : jsstring;
  extension : jsstring
}.

Record EmbedCache : Type := { link : jsstring }.

(** [embeds] is absent from the cache of a note without embeds. *)
Record CachedMetadata : Type := { embeds : option (list EmbedCache) }.

(** The response of [requestUrl]; reading [json] parses the body and can
    throw. *)
Record RequestUrlResponse : Type := { json : result jsval }.

Record Host : Type := {
  getActiveFile : option TFile;
  vault_read : TFile -> result jsstring;
  vault_readBinary : TFile -> result (list Byte.byte);
  getFileCache : TFile -> option CachedMetadata;
  getLinkpath : jsstring -> jsstring;
  getFirstLinkpathDest : jsstring -> jsstring -> option TFile;
  arrayBufferToBase64 : list Byte.byte -> jsstring;
  requestUrl : jsstring -> result RequestUrlResponse
}.

(** *** The storage-network client *)
Record Transaction : Type := {
  tx_data : jsstring;
  tx_tags : list (jsstring * jsstring);
  tx_id : jsstring
}.

Definition addTag (t : Transaction) (tag_name tag_value : jsstring) : Transaction :=
  {| tx_data := tx_data t;
     tx_tags := tx_tags t ++ [(tag_name, tag_value)];
     tx_id := tx_id t |}.

(** The HTTP status is an integral number. *)
Record PostResponse : Type := { status : Z }.

(** [transactions_sign] gives the transaction as signing leaves it: the
    client fills in the identifier of the object it is handed. *)
Record Arweave : Type := {
  createTransaction : jsstring -> jsval -> result Transaction;
  transactions_sign : Transaction -> jsval -> result Transaction;
  transactions_post : Transaction -> result PostResponse;
  transactions_getPrice : nat -> result jsstring;
  ar_winstonToAr : jsstring -> jsstring;
  wallets_getAddress : jsval -> result jsstring;
  wallets_getBalance : jsstring -> result jsstring
}.

(** *** The markdown renderer and the built-ins of the language *)
Record Platform : Type := {
  marked : jsstring -> jsstring;
  JSON_parse : jsstring -> result jsval;
  StringToNumber : jsstring -> float;
  ObjectToNumber : jsval -> result float;
  NumberToString : float -> jsstring;
  ValueToString : jsval -> jsstring
}.

Record World : Type := {
  host : Host;
  arweave : Arweave;
  platform : Platform
}.

(** ** The state the plugin acts on *)

Record ArweaveUploaderSettings : Type := { privateKey : jsstring }.

Definition DEFAULT_SETTINGS : ArweaveUploaderSettings := {| privateKey := [] |}.

(** An element of the modal, as [createEl] makes it. *)
Record Element : Type := {
  tag : jsstring;
  textContent : jsstring;
  href : option jsstring
}.

(** The fields of [ArweaveUploaderModal]. *)
Record ArweaveUploaderModal : Type := {
  priceInUSD : jsstring;
  data : jsstring
}.

(** The calls that leave the plugin, in the order they are made. *)
Inductive Request : Type :=
| ReqRead (f : TFile)
| ReqReadBinary (f : TFile)
| ReqUrl (url : jsstring)
| ReqCreateTransaction (payload : jsstring)
| ReqSign (t : Transaction)
| ReqPost (t : Transaction)
| ReqGetPrice (byteLength : nat)
| ReqGetAddress
| ReqGetBalance (address : jsstring).

(** [elements] is the store of the elements ever created, an element being
    known by its position; [contentEl] lists the children of the modal's
    content element.  A handler keeps the position of its button, so a
    label is changed in place. *)
Record State : Type := {
  settings : ArweaveUploaderSettings;
  notices : list jsstring;
  opened : list ArweaveUploaderModal;
  elements : list Element;
  contentEl : list nat;
  requests : list Request
}.

Definition initial (s : ArweaveUploaderSettings) : State :=
  {| settings := s; notices := []; opened := []; elements := [];
     contentEl := []; requests := [] |}.

(** ** Control flow: state and exceptions *)

Definition M (A : Type) : Type := State -> result A * State.

Definition ret {A} (a : A) : M A := fun s => (Ok a, s).

Definition bind {A B} (m : M A) (k : A -> M B) : M B :=
  fun s => match m s with
           | (Ok a, s') => k a s'
           | (Throw e, s') => (Throw e, s')
           end.

Definition throw {A} (e : JsError) : M A := fun s => (Throw e, s).

(** [try { body } catch (error) { handler }] *)
Definition try_catch {A} (body : M A) (handler : JsError -> M A) : M A :=
  fun s => match body s with
           | (Ok a, s') => (Ok a, s')
           | (Throw e, s') => handler e s'
           end.

Declare Scope js_scope.
Delimit Scope js_scope with js.
Notation "x <- c1 ;; c2" := (bind c1 (fun x => c2))
  (at level 61, c1 at next level, right associativity) : js_scope.
Notation "c1 ;; c2" := (bind c1 (fun _ => c2))
  (at level 61, right associativity) : js_scope.
Open Scope js_scope.

(** An outcome that is already known, thrown if it is an exception. *)
Definition of_result {A} (r : result A) : M A := fun s => (r, s).

(** [await] of a call that leaves the plugin. *)
Definition call {A} (q : Request) (r : result A) : M A :=
  fun s => (r, {| settings := settings s; notices := notices s;
                  opened := opened s; elements := elements s;
                  contentEl := contentEl s;
                  requests := requests s ++ [q] |}).

(** [new Notice(message)] *)
Definition Notice (message : jsstring) : M unit :=
  fun s => (Ok tt, {| settings := settings s;
                      notices := notices s ++ [message];
                      opened := opened s; elements := elements s;
                      contentEl := contentEl s; requests := requests s |}).

Definition get_settings : M ArweaveUploaderSettings := fun s => (Ok (settings s), s).

(** [new ArweaveUploaderModal(...).open()] *)
Definition open (m : ArweaveUploaderModal) : M unit :=
  fun s => (Ok tt, {| settings := settings s; notices := notices s;
                      opened := opened s ++ [m]; elements := elements s;
                      contentEl := contentEl s; requests := requests s |}).

(** [contentEl.empty()] *)
Definition empty : M unit :=
  fun s => (Ok tt, {| settings := settings s; notices := notices s;
                      opened := opened s; elements := elements s;
                      contentEl := []; requests := requests s |}).

(** [contentEl.createEl(tag, { text, href })]: the new element is appended
    to the children and returned. *)
Definition createEl (e : Element) : M nat :=
  fun s => let i := List.length (elements s) in
           (Ok i, {| settings := settings s; notices := notices s;
                     opened := opened s; elements := elements s ++ [e];
                     contentEl := contentEl s ++ [i];
                     requests := requests s |}).

Fixpoint set_nth {A} (i : nat) (f : A -> A) (l : list A) : list A :=
  match l, i with
  | [], _ => []
  | x :: l', O => f x :: l'
  | x :: l', S i' => x :: set_nth i' f l'
  end.

(** [el.textContent = label] *)
Definition set_textContent (el : nat) (label : jsstring) : M unit :=
  fun s => (Ok tt,
            {| settings := settings s; notices := notices s;
               opened := opened s;
               elements := set_nth el (fun e => {| tag := tag e;
                                                   textContent := label;
                                                   href := href e |})
                                   (elements s);
               contentEl := contentEl s; requests := requests s |}).

(** The label an element shows. *)
Definition label_of (s : State) (el : nat) : option jsstring :=
  option_map textContent (nth_error (elements s) el).

(** ** Coercions and property access *)

(** [Number(v)] *)
Definition Number (P : Platform) (v : jsval) : result float :=
  match v with
  | VUndefined => Ok nan
  | VNull => Ok 0%float
  | VBool b => Ok (if b then 1%float else 0%float)
  | VNum x => Ok x
  | VStr s => Ok (StringToNumber P s)
  | VArr _ | VObj _ | VNative _ => ObjectToNumber P v
  end.

(** A value inside a template literal. *)
Definition ToString (P : Platform) (v : jsval) : jsstring :=
  match v with
  | VStr s => s
  | _ => ValueToString P v
  end.

(** [v.key] for the two names the source reads, [arweave] and [usd]:
    neither is a property of a built-in prototype, so only an object of
    the parsed document can hold them, and reading a property of
    [undefined] or [null] throws. *)
Definition get_property (v : jsval) (key : jsstring) : result jsval :=
  match v with
  | VUndefined =>
      Throw (TypeError (lit "Cannot read properties of undefined (reading '"
                        ++ key ++ lit "')"))
  | VNull =>
      Throw (TypeError (lit "Cannot read properties of null (reading '"
                        ++ key ++ lit "')"))
  | VObj fields => Ok (object_get fields key)
  | _ => Ok VUndefined
  end.

(** ** The plugin, [class ArweaveUploader] *)

(** The lookup table of [getMimeType]. *)
Definition mimeTypes : list (jsstring * jsval) :=
  [ (lit "png", VStr (lit "image/png"));
    (lit "jpg", VStr (lit "image/jpeg"));
    (lit "jpeg", VStr (lit "image/jpeg"));
    (lit "gif", VStr (lit "image/gif"));
    (lit "bmp", VStr (lit "image/bmp"));
    (lit "svg", VStr (lit "image/svg+xml")) ].

Definition getMimeType (extension : jsstring) : jsval :=
  js_or (object_get mimeTypes (toLowerCase extension))
        (VStr (lit "application/octet-stream")).

(** The embed syntax of an attachment and the tag that replaces it. *)
Definition embed_syntax (file_name : jsstring) : jsstring :=
  lit "![[" ++ file_name ++ lit "]]".

Definition img_tag (src alt : jsstring) : jsstring :=
  lit "<img src=" ++ dquote ++ src ++ dquote ++ lit " alt=" ++ dquote ++ alt
  ++ dquote ++ lit ">".

(** The skeleton of [exportToHtml], line by line. *)
Definition fullHtml (title htmlContent : jsstring) : jsstring :=
  nl ++ lit "<!DOCTYPE html>" ++ nl
  ++ lit "<html lang=" ++ dquote ++ lit "en" ++ dquote ++ lit ">" ++ nl
  ++ lit "<head>" ++ nl
  ++ lit "  <meta charset=" ++ dquote ++ lit "UTF-8" ++ dquote ++ lit ">" ++ nl
  ++ lit "  <meta name=" ++ dquote ++ lit "viewport" ++ dquote
  ++ lit " content=" ++ dquote ++ lit "width=device-width, initial-scale=1.0"
  ++ dquote ++ lit ">" ++ nl
  ++ lit "  <title>" ++ title ++ lit "</title>" ++ nl
  ++ lit "  <link rel=" ++ dquote ++ lit "stylesheet" ++ dquote ++ lit " href="
  ++ dquote
  ++ lit "https://cdn.jsdelivr.net/npm/water.css@2/out/water.min.css"
  ++ dquote ++ lit ">" ++ nl
  ++ lit "</head>" ++ nl
  ++ lit "<body>" ++ nl
  ++ lit "  " ++ htmlContent ++ nl
  ++ lit "</body>" ++ nl
  ++ lit "</html>" ++ nl.

Definition price_feed_url : jsstring :=
  lit "https://api.coingecko.com/api/v3/simple/price?ids=arweave&vs_currencies=usd".

Definition transaction_url (t : Transaction) : jsstring :=
  lit "https://arweave.net/" ++ tx_id t.

Definition price_text (P : Platform) (priceInAR : jsstring) (txCost : float) : jsstring :=
  lit "Transaction cost: ~" ++ priceInAR ++ lit " AR (" ++ NumberToString P txCost
  ++ lit "$)".

Definition idle_label : jsstring := lit "Upload note to Arweave".
Definition busy_label : jsstring := lit "Uploading...".

Section Plugin.

Variable w : World.

Definition exportToHtml : M (option jsstring) :=
  match getActiveFile (host w) with
  | Some activeFile =>
      content <- call (ReqRead activeFile) (vault_read (host w) activeFile);;
      let htmlContent := marked (platform w) content in
      ret (Some (fullHtml (basename activeFile) htmlContent))
  | None => ret None
  end.

(** The body of the loop over [cache.embeds]. *)
Definition collect_embed (currentNote : TFile) (attachments : list TFile)
    (embed : EmbedCache) : list TFile :=
  if truthy_str (link embed) then
    let linkPath := getLinkpath (host w) (link embed) in
    match getFirstLinkpathDest (host w) linkPath (path currentNote) with
    | Some file =>
        if matches_image_regex (extension file) then attachments ++ [file]
        else attachments
    | None => attachments
    end
  else attachments.

Definition getImageAttachmentsFromCurrentNote : M (list TFile) :=
  match getActiveFile (host w) with
  | None => Notice (lit "No active note to export");; ret []
  | Some currentNote =>
      match getFileCache (host w) currentNote with
      | Some {| embeds := Some cache_embeds |} =>
          ret (fold_left (collect_embed currentNote) cache_embeds [])
      | _ => ret []
      end
  end.

Definition convertImageToBase64 (file : TFile) : M jsstring :=
  arrayBuffer <- call (ReqReadBinary file) (vault_readBinary (host w) file);;
  let base64String := arrayBufferToBase64 (host w) arrayBuffer in
  let mimeType := getMimeType (extension file) in
  ret (lit "data:" ++ ToString (platform w) mimeType ++ lit ";base64,"
       ++ base64String).

Definition uploadToArweave (html : jsstring) : M jsstring :=
  s <- get_settings;;
  wallet <- of_result (JSON_parse (platform w) (privateKey s));;
  try_catch
    (transaction <- call (ReqCreateTransaction html)
                         (createTransaction (arweave w) html wallet);;
     let tagged := addTag transaction (lit "Content-Type") (lit "text/html") in
     signed <- call (ReqSign tagged) (transactions_sign (arweave w) tagged wallet);;
     response <- call (ReqPost signed) (transactions_post (arweave w) signed);;
     if ((status response =? 200) || (status response =? 202))%Z then
       let url := transaction_url signed in
       ret url
     else
       throw (Error (lit "Transaction failed with status "
                     ++ decimal (status response))))
    (fun error =>
       Notice (lit "Error uploading to Arweave: " ++ error_toString error);;
       throw error).

Definition getArPriceInUSD : M jsval :=
  response <- call (ReqUrl price_feed_url) (requestUrl (host w) price_feed_url);;
  feed <- of_result (json response);;
  coin <- of_result (get_property feed (lit "arweave"));;
  of_result (get_property coin (lit "usd")).

Definition getTransactionPrice (payload : jsstring) : M jsstring :=
  try_catch
    (priceInWinston <- call (ReqGetPrice (List.length payload))
                            (transactions_getPrice (arweave w) (List.length payload));;
     let priceInAR := ar_winstonToAr (arweave w) priceInWinston in
     usd <- getArPriceInUSD;;
     rate <- of_result (Number (platform w) usd);;
     amount <- of_result (Number (platform w) (VStr priceInAR));;
     let txCost := (Math_round (rate * amount * 10000) / 10000)%float in
     ret (price_text (platform w) priceInAR txCost))
    (fun error =>
       Notice (lit "Error calculating transaction price: " ++ error_toString error);;
       throw error).

Definition getBalanceByPrivateKey : M jsstring :=
  try_catch
    (s <- get_settings;;
     wallet <- of_result (JSON_parse (platform w) (privateKey s));;
     address <- call ReqGetAddress (wallets_getAddress (arweave w) wallet);;
     balanceInWinston <- call (ReqGetBalance address)
                              (wallets_getBalance (arweave w) address);;
     let balanceInAR := ar_winstonToAr (arweave w) balanceInWinston in
     ret balanceInAR)
    (fun error =>
       Notice (lit "Error getting balance: " ++ error_toString error);;
       throw error).

(** The loop of [openModal] over the collected images. *)
Fixpoint inline_images (images : list TFile) (html : jsstring) : M jsstring :=
  match images with
  | [] => ret html
  | image :: rest =>
      base64 <- convertImageToBase64 image;;
      inline_images rest
        (replace html (embed_syntax (name image)) (img_tag base64 (name image)))
  end.

Definition openModal : M unit :=
  exported <- exportToHtml;;
  match exported with
  | Some html =>
      if truthy_str html then
        images <- getImageAttachmentsFromCurrentNote;;
        html' <- inline_images images html;;
        price <- getTransactionPrice html';;
        open {| priceInUSD := price; data := html' |}
      else Notice (lit "No active note to export")
  | None => Notice (lit "No active note to export")
  end.

(** ** The modal, [class ArweaveUploaderModal] *)

(** The click handler of the upload button, [sendButton.onclick]. *)
Definition onclick (modal : ArweaveUploaderModal) (sendButton : nat) : M unit :=
  set_textContent sendButton busy_label;;
  url <- uploadToArweave (data modal);;
  (if truthy_str url then
     createEl {| tag := lit "p"; textContent := lit "Tx sent"; href := None |};;
     createEl {| tag := lit "a"; textContent := url; href := Some url |};;
     ret tt
   else Notice (lit "Error sending transaction"));;
  set_textContent sendButton idle_label.

(** [onOpen] builds the dialog and gives the button its handler; the
    button it created is returned. *)
Definition onOpen (modal : ArweaveUploaderModal) : M nat :=
  empty;;
  balance <- getBalanceByPrivateKey;;
  createEl {| tag := lit "p";
              textContent := lit "Your wallet balance: " ++ balance ++ lit " AR";
              href := None |};;
  createEl {| tag := lit "p";
              textContent := lit "Transaction cost: " ++ priceInUSD modal;
              href := None |};;
  createEl {| tag := lit "button"; textContent := idle_label; href := None |}.

Definition onClose : M unit := empty.

End Plugin.

(** The settings tab: every edit of the text area stores the new value. *)
Definition onChange (value : jsstring) : M unit :=
  fun s => (Ok tt, {| settings := {| privateKey := value |};
                      notices := notices s; opened := opened s;
                      elements := elements s; contentEl := contentEl s;
                      requests := requests s |}).

(** ** Example worlds

    Concrete collaborators on which the methods are run: a vault with one
    note and two attachments, a network that accepts every call and
    answers the submission with a chosen status, and the built-ins on the
    few arguments the examples reach. *)
Module Example.

Definition note : TFile :=
  {| path := lit "notes/todo.md"; name := lit "todo.md";
     basename := lit "todo"; extension := lit "md" |}.

Definition diagram : TFile :=
  {| path := lit "assets/diagram.png"; name := lit "diagram.png";
     basename := lit "diagram"; extension := lit "png" |}.

(** A gzip-compressed drawing: its extension is not one of the six. *)
Definition drawing : TFile :=
  {| path := lit "assets/logo.svgz"; name := lit "logo.svgz";
     basename := lit "logo"; extension := lit "svgz" |}.

Definition vault : list TFile := [note; diagram; drawing].

(** The first four bytes of a PNG file and their base64 form. *)
Definition png_bytes : list Byte.byte := [Byte.x89; Byte.x50; Byte.x4e; Byte.x47].

Definition feed_document : jsval :=
  VObj [(lit "arweave", VObj [(lit "usd", VNum 4%float)])].

Definition a_host (active : option TFile) (links : list jsstring) : Host :=
  {| getActiveFile := active;
     vault_read := fun _ => Ok (lit "markdown of the note");
     vault_readBinary := fun _ => Ok png_bytes;
     getFileCache := fun _ =>
       Some {| embeds := Some (map (fun l => {| link := l |}) links) |};
     getLinkpath := fun linktext => linktext;
     getFirstLinkpathDest := fun linkpath _ =>
       find (fun f => str_eqb (name f) linkpath) vault;
     arrayBufferToBase64 := fun _ => lit "iVBORw==";
     requestUrl := fun _ => Ok {| json := Ok feed_document |} |}.

Definition a_network (post_status : Z) : Arweave :=
  {| createTransaction := fun payload _ =>
       Ok {| tx_data := payload; tx_tags := []; tx_id := [] |};
     transactions_sign := fun t _ =>
       Ok {| tx_data := tx_data t; tx_tags := tx_tags t;
             tx_id := lit "bNbA3TEQVL60xlgCcqdz4ZPHFZ711cZ3hmkpGttDt_U" |};
     transactions_post := fun _ => Ok {| status := post_status |};
     transactions_getPrice := fun _ => Ok (lit "500000000000");
     ar_winstonToAr := fun _ => lit "0.5";
     wallets_getAddress := fun _ => Ok (lit "1seRanklLU_1VTGkEk7P0xAwMJfA7owA1JHW5KyZKlY");
     wallets_getBalance := fun _ => Ok (lit "500000000000") |}.

Definition SyntaxError (message : jsstring) : JsError :=
  mkError (lit "SyntaxError") message.

(** Integral numbers print as their decimal digits; the examples print
    no other number. *)
Definition print_number (x : float) : jsstring :=
  match Prim2SF x with
  | S754_zero _ => lit "0"
  | S754_infinity neg => if neg then lit "-Infinity" else lit "Infinity"
  | S754_nan => lit "NaN"
  | S754_finite neg m e =>
      let magnitude :=
        if (0 <=? e)%Z then (Z.pos m * 2 ^ e)%Z else (Z.pos m / 2 ^ (- e))%Z in
      decimal (if neg then (- magnitude)%Z else magnitude)
  end.

(** [JSON.parse] on the empty credential and on the empty object;
    [marked] gives the rendered body chosen for the example. *)
Definition a_platform (rendered : jsstring) : Platform :=
  {| marked := fun _ => rendered;
     JSON_parse := fun s =>
       match s with
       | [] => Throw (SyntaxError (lit "Unexpected end of JSON input"))
       | _ => if str_eqb s (lit "{}") then Ok (VObj [])
              else Throw (SyntaxError (lit "Unexpected token"))
       end;
     StringToNumber := fun s => if str_eqb s (lit "0.5") then 0.5%float else nan;
     ObjectToNumber := fun _ => Ok nan;
     NumberToString := print_number;
     ValueToString := fun v =>
       match v with
       | VNative _ => lit "function Object() { [native code] }"
       | _ => lit "[object Object]"
       end |}.

Definition a_world (active : option TFile) (links : list jsstring)
    (rendered : jsstring) (post_status : Z) : World :=
  {| host := a_host active links;
     arweave := a_network post_status;
     platform := a_platform rendered |}.

(** A stored credential that parses. *)
Definition with_key : State := initial {| privateKey := lit "{}" |}.

(** The state of a fresh installation: the credential is empty. *)
Definition fresh : State := initial DEFAULT_SETTINGS.

(** The note quotes the embed syntax in a code span, which the embed
    index does not list, and then embeds the diagram. *)
Definition rendered_twice : jsstring :=
  lit "<p><code>![[diagram.png]]</code></p>" ++ nl
  ++ lit "<p>![[diagram.png]]</p>" ++ nl.

Definition rendered_once : jsstring := lit "<p>![[diagram.png]]</p>" ++ nl.

(** Three worlds: the submission is accepted, the submission is rejected,
    no note is open. *)
Definition accepted : World := a_world (Some note) [] rendered_once 202.
Definition rejected : World := a_world (Some note) [] rendered_once 500.
Definition nothing_open : World := a_world None [] rendered_once 200.

(** A document and the modal that shows it. *)
Definition page : jsstring := lit "<p>note</p>".
Definition dialog : ArweaveUploaderModal :=
  {| priceInUSD := lit "Transaction cost: ~0.5 AR (2$)"; data := page |}.

(** The same host with another outcome of reading the note, and with
    another document from the price feed. *)
Definition with_read (h : Host) (outcome : result jsstring) : Host :=
  {| getActiveFile := getActiveFile h;
     vault_read := fun _ => outcome;
     vault_readBinary := vault_readBinary h;
     getFileCache := getFileCache h;
     getLinkpath := getLinkpath h;
     getFirstLinkpathDest := getFirstLinkpathDest h;
     arrayBufferToBase64 := arrayBufferToBase64 h;
     requestUrl := requestUrl h |}.

Definition with_feed (h : Host) (document : jsval) : Host :=
  {| getActiveFile := getActiveFile h;
     vault_read := vault_read h;
     vault_readBinary := vault_readBinary h;
     getFileCache := getFileCache h;
     getLinkpath := getLinkpath h;
     getFirstLinkpathDest := getFirstLinkpathDest h;
     arrayBufferToBase64 := arrayBufferToBase64 h;
     requestUrl := fun _ => Ok {| json := Ok document |} |}.

(** The note cannot be read. *)
Definition unreadable : World :=
  {| host := with_read (host accepted)
                       (Throw (Error (lit "ENOENT: no such file or directory")));
     arweave := arweave accepted;
     platform := platform accepted |}.

(** The feed answers [{ "arweave": {} }]: the price in dollars is missing. *)
Definition no_quote : World :=
  {| host := with_feed (host accepted) (VObj [(lit "arweave", VObj [])]);
     arweave := arweave accepted;
     platform := platform accepted |}.

End Example.

(** ** The commands of [onload]

    The ribbon icon and the command call [openModal] without awaiting it:
    the effects of the call take place, and its outcome, a rejection
    included, is seen by nobody. *)
Definition not_awaited {A} (m : M A) : M unit :=
  fun s => (Ok tt, snd (m s)).

Section Commands.

Variable w : World.

(** The callback of the ribbon icon. *)
Definition ribbon_callback : M unit := not_awaited (openModal w).

(** [checkCallback] of the command [open-modal]. *)
Definition checkCallback (checking : bool) : M bool :=
  match getActiveFile (host w) with
  | Some _ =>
      (if negb checking then not_awaited (openModal w) else ret tt);;
      ret true
  | None => ret false
  end.

End Commands.

(** ** The settings object, [loadSettings] and the settings tab

    At run time [this.settings] is the object [Object.assign] builds: it
    holds every property of the stored document, whatever its type.  An
    object is its own properties and its prototype, [None] standing for
    [Object.prototype]. *)
Record object : Type := {
  own : list (jsstring * jsval);
  prototype : option jsval
}.

(** Writing an own property: in place if the key exists, at the end
    otherwise. *)
Fixpoint set_field (k : jsstring) (v : jsval) (fields : list (jsstring * jsval))
  : list (jsstring * jsval) :=
  match fields with
  | [] => [(k, v)]
  | (k', v') :: rest =>
      if str_eqb k k' then (k, v) :: rest else (k', v') :: set_field k v rest
  end.

Definition is_object_or_null (v : jsval) : bool :=
  match v with
  | VNull | VArr _ | VObj _ | VNative _ => true
  | _ => false
  end.

Definition proto_key : jsstring := lit "__proto__".

(** Does the assignment [o.__proto__ = v] reach the accessor of
    [Object.prototype]?  It does unless the object or an object of its
    prototype chain has a property of that name of its own, or the chain
    ends before [Object.prototype]. *)
Definition reaches_proto_accessor (o : object) : bool :=
  match assoc proto_key (own o) with
  | Some _ => false
  | None =>
      match prototype o with
      | None => true
      | Some VNull => false
      | Some (VObj fields) =>
          match assoc proto_key fields with Some _ => false | None => true end
      | Some _ => true
      end
  end.

(** [o[k] = v] on an object whose properties are all writable data
    properties.  The key [__proto__] is the one accessor on the chain: its
    setter changes the prototype when [v] is an object or [null] and does
    nothing otherwise. *)
Definition Set_property (o : object) (k : jsstring) (v : jsval) : object :=
  if str_eqb k proto_key && reaches_proto_accessor o then
    if is_object_or_null v then {| own := own o; prototype := Some v |} else o
  else {| own := set_field k v (own o); prototype := prototype o |}.

Fixpoint index_fields (i : nat) (items : list jsval) : list (jsstring * jsval) :=
  match items with
  | [] => []
  | x :: rest => (decimal (Z.of_nat i), x) :: index_fields (S i) rest
  end.

(** The own enumerable properties of a source of [Object.assign]: those
    of an object, the elements of an array, the code units of a string;
    [null], [undefined], numbers and booleans have none. *)
Definition own_enumerable (v : jsval) : list (jsstring * jsval) :=
  match v with
  | VObj fields => fields
  | VArr items => index_fields 0 items
  | VStr s => index_fields 0 (map (fun c => VStr [c]) s)
  | _ => []
  end.

Definition assign_from (target : object) (source : jsval) : object :=
  fold_left (fun o kv => Set_property o (fst kv) (snd kv))
            (own_enumerable source) target.

(** [Object.assign(target, ...sources)] *)
Definition Object_assign (target : object) (sources : list jsval) : object :=
  fold_left assign_from sources target.

(** The object literal [DEFAULT_SETTINGS]. *)
Definition DEFAULT_SETTINGS_object : jsval :=
  VObj [(lit "privateKey", VStr (privateKey DEFAULT_SETTINGS))].

(** [loadSettings], given what [loadData] delivered: [null] when nothing
    has been saved yet, the stored document otherwise. *)
Definition loadSettings (loaded : jsval) : object :=
  Object_assign {| own := []; prototype := None |}
                [DEFAULT_SETTINGS_object; loaded].

(** [this.settings.privateKey]: the settings object always has the
    property of its own. *)
Definition privateKey_of (o : object) : jsval :=
  match assoc (lit "privateKey") (own o) with
  | Some v => v
  | None => VUndefined
  end.

(** The handler of the text area, up to the call of [saveSettings]:
    [this.plugin.settings.privateKey = value].  [saveSettings] hands this
    very object to the host. *)
Definition set_privateKey (value : jsstring) (o : object) : object :=
  Set_property o (lit "privateKey") (VStr value).

(** The three elements of the dialog. *)
Definition dialog_elements (modal : ArweaveUploaderModal) (balance : jsstring)
  : list Element :=
  [ {| tag := lit "p";
       textContent := lit "Your wallet balance: " ++ balance ++ lit " AR";
       href := None |};
    {| tag := lit "p";
       textContent := lit "Transaction cost: " ++ priceInUSD modal;
       href := None |};
    {| tag := lit "button"; textContent := idle_label; href := None |} ].

(** A string without a dollar sign: as a replacement text it stands for
    itself. *)
Definition dollar_free (s : jsstring) : bool := forallb (fun c => negb (c =? 36)%N) s.

(** ** Counting the submissions among the requests *)
Definition is_post (q : Request) : bool :=
  match q with ReqPost _ => true | _ => false end.

Definition submissions (qs : list Request) : nat :=
  List.length (filter is_post qs).

Definition is_readBinary (q : Request) : bool :=
  match q with ReqReadBinary _ => true | _ => false end.

(** * Properties *)

(** ** Strings *)

Lemma str_eqb_eq (a b : jsstring) : str_eqb a b = true <-> a = b.
Proof.
  revert b; induction a as [|x a IH]; intros [|y b]; simpl; split;
    try congruence; try reflexivity.
  - intros H. apply andb_true_iff in H as [Hx Hr].
    apply N.eqb_eq in Hx. apply IH in Hr. congruence.
  - intros H. injection H as -> ->.
    rewrite N.eqb_refl. simpl. apply IH. reflexivity.
Qed.

Lemma str_eqb_refl (a : jsstring) : str_eqb a a = true.
Proof. apply str_eqb_eq. reflexivity. Qed.

(** The measure of [utf8_length] unfolds two units at a time on a
    surrogate pair, so the bound is proved for all strings up to a length. *)
Lemma utf8_length_bounds_upto (n : nat) :
  forall s : jsstring,
    List.length s <= n ->
    List.length s <= utf8_length s /\
    (is_ascii s = true -> utf8_length s = List.length s) /\
    (is_ascii s = false -> List.length s < utf8_length s).
Proof.
  induction n as [|n IH]; intros s Hn.
  - destruct s; simpl in *; [|lia]. repeat split; auto; discriminate.
  - destruct s as [|c s']; [simpl; repeat split; auto; discriminate|].
    simpl in Hn.
    assert (Hs' : List.length s' <= n) by lia.
    destruct (IH s' Hs') as (Hle & Heq & Hlt).
    cbn [utf8_length is_ascii forallb List.length].
    destruct (c <? 128)%N eqn:E1; cbn [andb].
    { repeat split; intros; try lia.
      - rewrite Heq by assumption. lia.
      - specialize (Hlt H). lia. }
    destruct (c <? 2048)%N eqn:E2.
    { repeat split; intros; try lia; discriminate. }
    destruct (is_high_surrogate c) eqn:E3.
    + destruct s' as [|d s'']; [simpl; repeat split; intros; try lia; discriminate|].
      destruct (is_low_surrogate d) eqn:E4.
      * simpl in Hs'.
        assert (Hs'' : List.length s'' <= n) by lia.
        destruct (IH s'' Hs'') as (Hle2 & _ & _).
        cbn [List.length]. repeat split; intros; try lia; discriminate.
      * repeat split; intros; try lia; discriminate.
    + repeat split; intros; try lia; discriminate.
Qed.

Lemma utf8_length_bounds (s : jsstring) :
  List.length s <= utf8_length s /\
  (is_ascii s = true -> utf8_length s = List.length s) /\
  (is_ascii s = false -> List.length s < utf8_length s).
Proof. apply (utf8_length_bounds_upto (n := List.length s)). lia. Qed.

(** ** The MIME table, [getMimeType] *)

Section MimeTypes.

Lemma lower_unit_no_upper (c : code_unit) :
  forallb (fun d => negb (is_upper d)) (lower_unit c) = true.
Proof.
  unfold lower_unit, is_upper.
  destruct ((65 <=? c) && (c <=? 90))%N eqn:E.
  - apply andb_true_iff in E as [E1 E2].
    apply N.leb_le in E1. apply N.leb_le in E2. simpl.
    rewrite andb_true_r. apply negb_true_iff. apply andb_false_iff. right.
    apply N.leb_gt. lia.
  - destruct (c =? 8490)%N; [reflexivity|].
    destruct (c =? 304)%N; [reflexivity|].
    simpl. rewrite E. reflexivity.
Qed.

(** A lowered string holds no upper-case ASCII letter. *)
Lemma toLowerCase_no_upper (s : jsstring) :
  forallb (fun d => negb (is_upper d)) (toLowerCase s) = true.
Proof.
  unfold toLowerCase. induction s as [|c s IH]; [reflexivity|].
  simpl. rewrite forallb_app, lower_unit_no_upper, IH. reflexivity.
Qed.

(** Of the names inherited from [Object.prototype], a lowered extension
    can only be [constructor] or [__proto__]: the others hold an
    upper-case letter. *)
Lemma lowered_inherited_name (extension : jsstring) :
  existsb (str_eqb (toLowerCase extension)) Object_prototype_names = true ->
  toLowerCase extension = lit "constructor" \/
  toLowerCase extension = lit "__proto__".
Proof.
  intros H. apply existsb_exists in H as (n & Hin & Heq).
  apply str_eqb_eq in Heq.
  pose proof (toLowerCase_no_upper extension) as Hlow. rewrite Heq in Hlow.
  simpl in Hin.
  repeat (destruct Hin as [<- | Hin];
          [first [ left; exact Heq | right; exact Heq
                 | vm_compute in Hlow; discriminate Hlow ] |]).
  contradiction.
Qed.

(** An extension whose lower-case form is a key of the table gets the
    entry of that key. *)
Lemma getMimeType_entry (extension mime : jsstring) :
  assoc (toLowerCase extension) mimeTypes = Some (VStr mime) ->
  getMimeType extension = VStr mime.
Proof.
  intros H. unfold getMimeType, object_get. rewrite H.
  assert (Ht : truthy (VStr mime) = true).
  { revert H. generalize (toLowerCase extension). intros k. simpl.
    repeat (destruct (str_eqb k _); [intros [= <-]; reflexivity|]).
    discriminate. }
  unfold js_or. rewrite Ht. reflexivity.
Qed.


(** The default is returned when the lowered extension is neither a key
    of the table nor [constructor] nor [__proto__]. *)
Lemma getMimeType_default (extension : jsstring) :
  assoc (toLowerCase extension) mimeTypes = None ->
  toLowerCase extension <> lit "constructor" ->
  toLowerCase extension <> lit "__proto__" ->
  getMimeType extension = VStr (lit "application/octet-stream").
Proof.
  intros Hnone Hc Hp. unfold getMimeType, object_get. rewrite Hnone.
  destruct (existsb (str_eqb (toLowerCase extension)) Object_prototype_names) eqn:E.
  - apply lowered_inherited_name in E as [E | E]; contradiction.
  - reflexivity.
Qed.


End MimeTypes.

(** ** The image filter of [getImageAttachmentsFromCurrentNote] *)

Section ImageFilter.

Lemma match_here_ci_spec (p s : jsstring) :
  match_here_ci p s = true <->
  exists found rest,
    s = found ++ rest /\ map canonicalize found = map canonicalize p.
Proof.
  revert s; induction p as [|x p IH]; intros s; simpl.
  - split; [intros _; exists [], s; split; reflexivity | reflexivity].
  - destruct s as [|y s].
    + split; [discriminate|].
      intros (found & rest & Hs & Hm).
      destruct found; [discriminate Hm | discriminate Hs].
    + rewrite andb_true_iff, N.eqb_eq, IH. split.
      * intros (Hxy & found & rest & -> & Hm).
        exists (y :: found), rest. simpl. split; [reflexivity|]. congruence.
      * intros (found & rest & Hs & Hm).
        destruct found as [|z found]; [discriminate Hm|].
        simpl in Hs, Hm. injection Hs as -> ->. injection Hm as Hz Hm.
        split; [congruence|]. exists found, rest. split; [reflexivity | exact Hm].
Qed.

(** The pattern is not anchored: it matches when some alternative occurs
    anywhere in the string, in any letter case. *)
Lemma regex_search_spec (alts : list jsstring) (s : jsstring) :
  regex_search alts s = true <->
  exists skipped found rest alt,
    s = skipped ++ found ++ rest /\ In alt alts /\
    map canonicalize found = map canonicalize alt.
Proof.
  induction s as [|c s IH].
  - simpl. rewrite orb_false_r, existsb_exists. split.
    + intros (alt & Hin & Hm). apply match_here_ci_spec in Hm as (found & rest & Hs & Hm).
      exists [], found, rest, alt. auto.
    + intros (skipped & found & rest & alt & Hs & Hin & Hm).
      exists alt. split; [exact Hin|]. apply match_here_ci_spec.
      destruct skipped; [|discriminate Hs]. exists found, rest. auto.
  - cbn [regex_search]. rewrite orb_true_iff, existsb_exists, IH. split.
    + intros [(alt & Hin & Hm) | (skipped & found & rest & alt & Hs & Hin & Hm)].
      * apply match_here_ci_spec in Hm as (found & rest & Hs & Hm).
        exists [], found, rest, alt. auto.
      * exists (c :: skipped), found, rest, alt. rewrite Hs. auto.
    + intros (skipped & found & rest & alt & Hs & Hin & Hm).
      destruct skipped as [|d skipped].
      * left. exists alt. split; [exact Hin|]. apply match_here_ci_spec.
        exists found, rest. auto.
      * right. simpl in Hs. injection Hs as -> ->.
        exists skipped, found, rest, alt. auto.
Qed.

(** Each of the six extensions passes the filter, in any letter case. *)
Lemma image_extension_matches (extension alt : jsstring) :
  In alt image_alternatives ->
  map canonicalize extension = map canonicalize alt ->
  matches_image_regex extension = true.
Proof.
  intros Hin Hm. apply regex_search_spec.
  exists [], extension, [], alt. rewrite app_nil_r. auto.
Qed.

(** So does every extension that merely contains one of them. *)
Lemma containing_extension_matches (before after alt : jsstring) :
  In alt image_alternatives ->
  matches_image_regex (before ++ alt ++ after) = true.
Proof.
  intros Hin. apply regex_search_spec. exists before, alt, after, alt. auto.
Qed.

(** C5. A note whose embed index links [logo.svgz]: the extension [svgz]
    is none of png, jpg, jpeg, gif, bmp and svg in any letter case, and
    the file is collected all the same, because the unanchored pattern
    finds [svg] inside it. *)
Theorem svgz_attachment_is_collected :
  let w := Example.a_world (Some Example.note) [lit "logo.svgz"]
                           Example.rendered_once 200 in
  existsb (str_eqb (toLowerCase (extension Example.drawing))) image_alternatives
    = false /\
  getImageAttachmentsFromCurrentNote w Example.with_key
    = (Ok [Example.drawing], Example.with_key).
Proof. split; reflexivity. Qed.

End ImageFilter.

(** ** Inlining the images, [openModal] and [String.prototype.replace] *)

Section Inlining.

Lemma starts_with_split (p s : jsstring) :
  starts_with p s = true -> s = p ++ skipn (List.length p) s.
Proof.
  revert s; induction p as [|x p IH]; intros s H; [reflexivity|].
  destruct s as [|y s]; [discriminate H|].
  simpl in H. apply andb_true_iff in H as [Hxy Hr].
  apply N.eqb_eq in Hxy. subst y. simpl. f_equal. apply IH, Hr.
Qed.

Lemma split_at_first_spec (p s before after : jsstring) :
  split_at_first p s = Some (before, after) -> s = before ++ p ++ after.
Proof.
  revert before; induction s as [|c s IH]; intros before; simpl.
  - destruct (starts_with p []) eqn:E; [|discriminate].
    intros [= <- <-]. apply starts_with_split in E. exact E.
  - destruct (starts_with p (c :: s)) eqn:E.
    + intros [= <- <-]. apply starts_with_split in E. exact E.
    + destruct (split_at_first p s) as [[b a]|]; [|discriminate].
      intros [= <- <-]. simpl. f_equal. apply IH. reflexivity.
Qed.

Lemma includes_app_r (p a b : jsstring) :
  includes p b = true -> includes p (a ++ b) = true.
Proof.
  intros H. induction a as [|c a IH]; [exact H|].
  cbn [app includes]. rewrite IH. apply orb_true_r.
Qed.

(** [replace] touches the first occurrence only: an occurrence after it
    is still there in the result. *)
Lemma replace_keeps_later_occurrence (s p r before after : jsstring) :
  split_at_first p s = Some (before, after) ->
  includes p after = true ->
  includes p (replace s p r) = true.
Proof.
  intros Hsplit Hlater. unfold replace. rewrite Hsplit.
  apply includes_app_r, includes_app_r, Hlater.
Qed.

(** C1. A note that quotes the embed syntax of [diagram.png] and then
    embeds the file: the exported HTML holds two literal occurrences, the
    embed index resolves the attachment, and the document handed to the
    modal still holds one occurrence, after the [img] tag that took the
    place of the first. *)
Theorem second_embed_occurrence_is_left :
  let w := Example.a_world (Some Example.note) [lit "diagram.png"]
                           Example.rendered_twice 200 in
  let pattern := embed_syntax (name Example.diagram) in
  let inlined :=
    fullHtml (lit "todo")
      (lit "<p><code>"
       ++ img_tag (lit "data:image/png;base64,iVBORw==") (lit "diagram.png")
       ++ lit "</code></p>" ++ nl
       ++ lit "<p>![[diagram.png]]</p>" ++ nl) in
  fst (exportToHtml w Example.with_key)
    = Ok (Some (fullHtml (lit "todo") Example.rendered_twice)) /\
  occurrences pattern (fullHtml (lit "todo") Example.rendered_twice) = 2 /\
  fst (getImageAttachmentsFromCurrentNote w Example.with_key)
    = Ok [Example.diagram] /\
  fst (openModal w Example.with_key) = Ok tt /\
  map data (opened (snd (openModal w Example.with_key))) = [inlined] /\
  occurrences pattern inlined = 1 /\
  includes pattern inlined = true.
Proof. vm_compute. repeat split; reflexivity. Qed.

End Inlining.

(** ** Running the methods *)

Ltac unfold_js :=
  unfold bind, ret, throw, try_catch, of_result, call, Notice, get_settings,
    open, empty, createEl, set_textContent in *.

(** Case analysis on the outcome of the next call the goal waits for. *)
Ltac next_outcome :=
  match goal with
  | |- context [match ?r with Ok _ => _ | Throw _ => _ end] =>
      let E := fresh "E" in destruct r eqn:E; cbn [fst snd]
  end.

(** ** Upload, [uploadToArweave] *)

Section Upload.

Variable w : World.

(** What a run of [uploadToArweave] changes in the state: it adds
    requests and at most one notice, which starts with the words of its
    [catch] block. *)
Lemma uploadToArweave_frame (html : jsstring) (s : State) :
  let s' := snd (uploadToArweave w html s) in
  settings s' = settings s /\ opened s' = opened s /\
  elements s' = elements s /\ contentEl s' = contentEl s /\
  exists added,
    notices s' = notices s ++ added /\
    Forall (fun n => starts_with (lit "Error uploading to Arweave: ") n = true) added.
Proof.
  unfold uploadToArweave. unfold_js. cbn [fst snd].
  destruct (JSON_parse (platform w) (privateKey (settings s))) as [wallet|e];
    cbn [fst snd settings opened elements contentEl notices].
  2: { repeat split. exists []. rewrite app_nil_r. auto. }
  destruct (createTransaction (arweave w) html wallet) as [t|e];
    cbn [fst snd settings opened elements contentEl notices requests].
  2: { repeat split. eexists. split; [reflexivity|]. constructor; [reflexivity|constructor]. }
  destruct (transactions_sign (arweave w) _ wallet) as [t'|e];
    cbn [fst snd settings opened elements contentEl notices requests].
  2: { repeat split. eexists. split; [reflexivity|]. constructor; [reflexivity|constructor]. }
  destruct (transactions_post (arweave w) t') as [r|e];
    cbn [fst snd settings opened elements contentEl notices requests].
  2: { repeat split. eexists. split; [reflexivity|]. constructor; [reflexivity|constructor]. }
  destruct ((status r =? 200) || (status r =? 202))%Z;
    cbn [fst snd settings opened elements contentEl notices requests].
  - repeat split. exists []. rewrite app_nil_r. auto.
  - repeat split. eexists. split; [reflexivity|]. constructor; [reflexivity|constructor].
Qed.

(** Whatever [uploadToArweave] returns is the address of a transaction. *)
Lemma uploadToArweave_returns_url (html url : jsstring) (s s' : State) :
  uploadToArweave w html s = (Ok url, s') ->
  exists t, url = transaction_url t.
Proof.
  unfold uploadToArweave. unfold_js.
  destruct (JSON_parse (platform w) (privateKey (settings s))) as [wallet|e];
    [|discriminate].
  destruct (createTransaction (arweave w) html wallet) as [t|e]; [|discriminate].
  destruct (transactions_sign (arweave w) _ wallet) as [t'|e]; [|discriminate].
  destruct (transactions_post (arweave w) t') as [r|e]; [|discriminate].
  destruct ((status r =? 200) || (status r =? 202))%Z; [|discriminate].
  intros [= <- _]. exists t'. reflexivity.
Qed.

(** A run that returns has shown no notice. *)
Lemma uploadToArweave_ok_notices (html url : jsstring) (s s' : State) :
  uploadToArweave w html s = (Ok url, s') -> notices s' = notices s.
Proof.
  unfold uploadToArweave. unfold_js.
  destruct (JSON_parse (platform w) (privateKey (settings s))) as [wallet|e];
    [|discriminate].
  destruct (createTransaction (arweave w) html wallet) as [t|e]; [|discriminate].
  destruct (transactions_sign (arweave w) _ wallet) as [t'|e]; [|discriminate].
  destruct (transactions_post (arweave w) t') as [r|e]; [|discriminate].
  destruct ((status r =? 200) || (status r =? 202))%Z; [|discriminate].
  intros [= _ <-]. reflexivity.
Qed.

(** A credential that does not parse: the exception of [JSON.parse]
    leaves [uploadToArweave] before its [try] block is entered, and the
    state is as it was. *)
Lemma uploadToArweave_parse_error (html : jsstring) (s : State) (e : JsError) :
  JSON_parse (platform w) (privateKey (settings s)) = Throw e ->
  uploadToArweave w html s = (Throw e, s).
Proof. intros H. unfold uploadToArweave. unfold_js. rewrite H. reflexivity. Qed.

(** In [getBalanceByPrivateKey] the parse is inside the [try] block. *)
Lemma getBalanceByPrivateKey_parse_error (s : State) (e : JsError) :
  JSON_parse (platform w) (privateKey (settings s)) = Throw e ->
  fst (getBalanceByPrivateKey w s) = Throw e /\
  notices (snd (getBalanceByPrivateKey w s))
    = notices s ++ [lit "Error getting balance: " ++ error_toString e].
Proof.
  intros H. unfold getBalanceByPrivateKey. unfold_js. rewrite H.
  split; reflexivity.
Qed.

End Upload.

Section UploadOutcome.

Variable w : World.

(** C4. Once the credential has parsed and the transaction has been
    built, signed and answered, [uploadToArweave] returns the address
    [https://arweave.net/<id>] when the status is 200 or 202, throws
    an error whose message names the status otherwise, and so returns an
    address exactly for these two statuses. *)
Theorem uploadToArweave_status (html : jsstring) (s : State) (wallet : jsval)
    (t signed : Transaction) (response : PostResponse) :
  JSON_parse (platform w) (privateKey (settings s)) = Ok wallet ->
  createTransaction (arweave w) html wallet = Ok t ->
  transactions_sign (arweave w)
    (addTag t (lit "Content-Type") (lit "text/html")) wallet = Ok signed ->
  transactions_post (arweave w) signed = Ok response ->
  (status response = 200%Z \/ status response = 202%Z ->
   fst (uploadToArweave w html s) = Ok (lit "https://arweave.net/" ++ tx_id signed)) /\
  (~ (status response = 200%Z \/ status response = 202%Z) ->
   fst (uploadToArweave w html s)
     = Throw (Error (lit "Transaction failed with status "
                     ++ decimal (status response)))) /\
  ((exists url, fst (uploadToArweave w html s) = Ok url) <->
   (status response = 200%Z \/ status response = 202%Z)).
Proof.
  intros Hparse Hcreate Hsign Hpost.
  unfold uploadToArweave. unfold_js. rewrite Hparse, Hcreate, Hsign, Hpost.
  destruct ((status response =? 200) || (status response =? 202))%Z eqn:E;
    cbn [fst snd].
  - apply orb_true_iff in E. rewrite !Z.eqb_eq in E.
    split; [reflexivity|]. split; [intros H; contradiction|].
    split; [intros _; exact E | intros _; eexists; reflexivity].
  - apply orb_false_iff in E as [E1 E2]. rewrite Z.eqb_neq in E1, E2.
    split; [intros [H|H]; contradiction|]. split; [reflexivity|].
    split; [intros [url H]; discriminate H | intros [H|H]; contradiction].
Qed.

Lemma nth_error_set_nth {A} (i : nat) (f : A -> A) (l : list A) :
  nth_error (set_nth i f l) i = option_map f (nth_error l i).
Proof.
  revert i; induction l as [|x l IH]; intros [|i]; simpl; auto.
Qed.

(** A failed upload: the exception leaves the click handler at the
    [await], so the statement after it, which restores the label, does
    not run. *)
Lemma onclick_failed_upload (modal : ArweaveUploaderModal)
    (sendButton : nat) (s : State) (e : JsError) :
  sendButton < List.length (elements s) ->
  fst (uploadToArweave w (data modal) (snd (set_textContent sendButton busy_label s)))
    = Throw e ->
  fst (onclick w modal sendButton s) = Throw e /\
  label_of (snd (onclick w modal sendButton s)) sendButton = Some busy_label.
Proof.
  intros Hlt Hup.
  set (s1 := snd (set_textContent sendButton busy_label s)) in *.
  assert (Hrun : onclick w modal sendButton s
                 = (Throw e, snd (uploadToArweave w (data modal) s1))).
  { unfold onclick, bind.
    change (set_textContent sendButton busy_label s) with (Ok tt, s1).
    cbv beta iota.
    destruct (uploadToArweave w (data modal) s1) as [r2 s2].
    cbn [fst] in Hup. subst r2. reflexivity. }
  rewrite Hrun. cbn [fst snd]. split; [reflexivity|].
  pose proof (uploadToArweave_frame w (data modal) s1) as (_ & _ & Hel & _).
  unfold label_of. rewrite Hel. unfold s1. cbn [snd set_textContent elements].
  rewrite nth_error_set_nth.
  destruct (nth_error (elements s) sendButton) eqn:En; [reflexivity|].
  apply nth_error_None in En. lia.
Qed.

Lemma length_set_nth {A} (i : nat) (f : A -> A) (l : list A) :
  List.length (set_nth i f l) = List.length l.
Proof.
  revert i; induction l as [|x l IH]; intros [|i]; simpl; auto.
Qed.

(** A successful upload: the paragraph and the link are appended and the
    label is the idle one again. *)
Lemma onclick_successful_upload (modal : ArweaveUploaderModal)
    (sendButton : nat) (s s2 : State) (url : jsstring) :
  sendButton < List.length (elements s) ->
  uploadToArweave w (data modal) (snd (set_textContent sendButton busy_label s))
    = (Ok url, s2) ->
  let s3 := snd (onclick w modal sendButton s) in
  fst (onclick w modal sendButton s) = Ok tt /\
  label_of s3 sendButton = Some idle_label /\
  contentEl s3 = contentEl s ++ [List.length (elements s); S (List.length (elements s))] /\
  notices s3 = notices s.
Proof.
  intros Hlt Hup.
  set (s1 := snd (set_textContent sendButton busy_label s)) in *.
  pose proof (uploadToArweave_frame w (data modal) s1) as (_ & _ & Hel & Hch & _).
  rewrite Hup in Hel, Hch. cbn [snd] in Hel, Hch.
  pose proof (uploadToArweave_ok_notices _ _ _ Hup) as Hadd.
  destruct (uploadToArweave_returns_url _ _ _ Hup) as [t Hurl].
  assert (Hlen : List.length (elements s1) = List.length (elements s)).
  { unfold s1. cbn [snd set_textContent elements]. apply length_set_nth. }
  unfold onclick, bind.
  change (set_textContent sendButton busy_label s) with (Ok tt, s1).
  cbv beta iota. rewrite Hup. subst url.
  cbn [transaction_url lit map list_ascii_of_string app truthy_str].
  unfold_js. cbn [fst snd elements contentEl notices].
  split; [reflexivity|]. split; [|split].
  - unfold label_of. cbn [elements]. rewrite nth_error_set_nth.
    rewrite Hel. rewrite <- app_assoc.
    rewrite nth_error_app1 by lia.
    destruct (nth_error (elements s1) sendButton) eqn:En; [reflexivity|].
    apply nth_error_None in En. lia.
  - rewrite Hch, Hel, length_app, Hlen, <- app_assoc. cbn [List.length app].
    unfold s1. cbn [snd set_textContent contentEl].
    repeat f_equal. lia.
  - rewrite Hadd. reflexivity.
Qed.

(** C10. Whatever [uploadToArweave] returns is a non-empty string, and no
    run of the click handler shows the notice of its [else] branch: the
    notices a click adds are those of the upload's [catch] block. *)
Theorem error_sending_transaction_unreachable :
  (forall html s url s',
      uploadToArweave w html s = (Ok url, s') -> truthy_str url = true) /\
  (forall modal sendButton s,
      exists added,
        notices (snd (onclick w modal sendButton s)) = notices s ++ added /\
        ~ In (lit "Error sending transaction") added).
Proof.
  split.
  - intros html s url s' H.
    apply uploadToArweave_returns_url in H as [t ->]. reflexivity.
  - intros modal sendButton s.
    set (s1 := snd (set_textContent sendButton busy_label s)).
    pose proof (uploadToArweave_frame w (data modal) s1)
      as (_ & _ & _ & _ & added & Hadd & Hall).
    exists added. split.
    + unfold onclick, bind.
      change (set_textContent sendButton busy_label s) with (Ok tt, s1).
      cbv beta iota.
      destruct (uploadToArweave w (data modal) s1) as [[url|e] s2] eqn:E2;
        cbn [snd] in Hadd.
      * apply uploadToArweave_returns_url in E2 as [t ->].
        unfold_js. cbn. exact Hadd.
      * cbn. exact Hadd.
    + intros Hin. rewrite Forall_forall in Hall. apply Hall in Hin.
      vm_compute in Hin. discriminate Hin.
Qed.

End UploadOutcome.

(** ** Export, [exportToHtml] and [openModal] *)

Section NoteExport.

Variable w : World.

Lemma fullHtml_truthy (title body : jsstring) : truthy_str (fullHtml title body) = true.
Proof. reflexivity. Qed.

(** C7. Without an active note [exportToHtml] returns [null] and throws
    nothing, and [openModal] shows the notice and opens no modal; with an
    active note whose text the vault delivers, [exportToHtml] returns the
    skeleton around the rendered text, a non-empty string. *)
Theorem export_without_and_with_active_note (s : State) :
  (getActiveFile (host w) = None ->
   exportToHtml w s = (Ok None, s) /\
   fst (openModal w s) = Ok tt /\
   notices (snd (openModal w s)) = notices s ++ [lit "No active note to export"] /\
   opened (snd (openModal w s)) = opened s) /\
  (forall activeFile content,
      getActiveFile (host w) = Some activeFile ->
      vault_read (host w) activeFile = Ok content ->
      let html := fullHtml (basename activeFile) (marked (platform w) content) in
      fst (exportToHtml w s) = Ok (Some html) /\ truthy_str html = true).
Proof.
  split.
  - intros Hnone. unfold openModal, bind, exportToHtml. rewrite Hnone.
    repeat split.
  - intros activeFile content Hsome Hread html.
    unfold exportToHtml. rewrite Hsome. unfold_js. rewrite Hread.
    split; reflexivity.
Qed.

End NoteExport.

(** ** The fee estimate, [getTransactionPrice] *)

Section Fee.

Variable w : World.

(** [Math.round] on a tie, on a negative tie, just below one half and on a
    small negative number. *)
Lemma Math_round_examples :
  Math_round 2.5 = 3%float /\ Math_round (-2.5) = (-2)%float /\
  Math_round 0x1.fffffffffffffp-2 = 0%float /\
  Math_round (-0.25) = (-0)%float.
Proof. repeat split; reflexivity. Qed.

(** C6. When the price query and the price feed answer,
    [getTransactionPrice] returns [Transaction cost: ~<amount> AR (<fiat>$)]
    and shows no notice; the amount is the client's rendering of the price
    and the fiat number is the rate times the amount, times 10000,
    rounded to the nearest integer, divided by 10000. *)
Theorem getTransactionPrice_text (payload : jsstring) (s : State)
    (winston : jsstring) (response : RequestUrlResponse)
    (feed coin usd : jsval) (rate : float) :
  transactions_getPrice (arweave w) (List.length payload) = Ok winston ->
  requestUrl (host w) price_feed_url = Ok response ->
  json response = Ok feed ->
  get_property feed (lit "arweave") = Ok coin ->
  get_property coin (lit "usd") = Ok usd ->
  Number (platform w) usd = Ok rate ->
  let priceInAR := ar_winstonToAr (arweave w) winston in
  let amount := StringToNumber (platform w) priceInAR in
  let fiat := (Math_round (rate * amount * 10000) / 10000)%float in
  fst (getTransactionPrice w payload s)
    = Ok (lit "Transaction cost: ~" ++ priceInAR ++ lit " AR ("
          ++ NumberToString (platform w) fiat ++ lit "$)") /\
  notices (snd (getTransactionPrice w payload s)) = notices s.
Proof.
  intros Hprice Hurl Hjson Hcoin Husd Hrate priceInAR amount fiat.
  unfold getTransactionPrice, getArPriceInUSD. unfold_js.
  rewrite Hprice, Hurl, Hjson, Hcoin, Husd, Hrate.
  split; reflexivity.
Qed.

(** C9. The first call [getTransactionPrice] makes is the price query,
    and the length it sends is the number of UTF-16 code units of the
    payload.  That number never exceeds the UTF-8 size of the payload,
    equals it for an ASCII payload and is smaller as soon as one code unit
    is not ASCII. *)
Theorem price_query_sends_code_unit_length (payload : jsstring) (s : State) :
  (exists later,
      requests (snd (getTransactionPrice w payload s))
      = requests s ++ ReqGetPrice (List.length payload) :: later) /\
  List.length payload <= utf8_length payload /\
  (is_ascii payload = true -> utf8_length payload = List.length payload) /\
  (is_ascii payload = false -> List.length payload < utf8_length payload).
Proof.
  split; [|apply utf8_length_bounds].
  unfold getTransactionPrice, getArPriceInUSD. unfold_js.
  repeat (next_outcome; cbn [requests];
          try (rewrite <- ?app_assoc; eexists; reflexivity)).
Qed.

End Fee.

(** ** The methods on the example worlds *)

Section Runs.

Import Example.

(** C2. The empty credential of a fresh installation is not valid JSON.
    [uploadToArweave] throws the parse error and shows no notice, because
    it parses before its [try] block; [getBalanceByPrivateKey], which
    parses inside its [try] block, shows a notice and throws the error
    again. *)
Theorem parse_error_in_upload_shows_no_notice :
  let e := SyntaxError (lit "Unexpected end of JSON input") in
  JSON_parse (platform accepted) (privateKey (settings fresh)) = Throw e /\
  uploadToArweave accepted page fresh = (Throw e, fresh) /\
  notices fresh = [] /\
  fst (getBalanceByPrivateKey accepted fresh) = Throw e /\
  notices (snd (getBalanceByPrivateKey accepted fresh))
    = [lit "Error getting balance: SyntaxError: Unexpected end of JSON input"].
Proof. repeat split; reflexivity. Qed.

(** C3. The network answers the submission with status 500.  [onOpen]
    creates the button with its idle label; the click handler relabels
    it, the upload shows its notice and throws, and the handler ends with
    that exception: the button keeps the label [Uploading...]. *)
Theorem failed_upload_leaves_button_relabelled :
  let ready := snd (onOpen rejected dialog with_key) in
  let after := onclick rejected dialog 2 ready in
  fst (onOpen rejected dialog with_key) = Ok 2 /\
  label_of ready 2 = Some idle_label /\
  fst after = Throw (Error (lit "Transaction failed with status 500")) /\
  notices (snd after)
    = [lit "Error uploading to Arweave: Error: Transaction failed with status 500"] /\
  label_of (snd after) 2 = Some busy_label /\
  busy_label <> idle_label.
Proof. vm_compute. repeat split; try reflexivity. discriminate. Qed.

(** A submission answered with 202 gives the address of the transaction. *)
Lemma uploadToArweave_status_witness :
  JSON_parse (platform accepted) (privateKey (settings with_key)) = Ok (VObj []) /\
  fst (uploadToArweave accepted page with_key)
    = Ok (lit "https://arweave.net/bNbA3TEQVL60xlgCcqdz4ZPHFZ711cZ3hmkpGttDt_U").
Proof.
  split; [reflexivity|].
  refine (proj1 (@uploadToArweave_status accepted page with_key (VObj [])
                   {| tx_data := page; tx_tags := []; tx_id := [] |}
                   {| tx_data := page;
                      tx_tags := [(lit "Content-Type", lit "text/html")];
                      tx_id := lit "bNbA3TEQVL60xlgCcqdz4ZPHFZ711cZ3hmkpGttDt_U" |}
                   {| status := 202 |}
                   eq_refl eq_refl eq_refl eq_refl) _).
  right. reflexivity.
Defined.

(** The feed quotes 4 dollars and the price is 0.5 AR: the estimate is 2
    dollars. *)
Lemma getTransactionPrice_text_witness :
  fst (getTransactionPrice accepted page with_key)
    = Ok (lit "Transaction cost: ~0.5 AR (2$)") /\
  notices (snd (getTransactionPrice accepted page with_key)) = [].
Proof.
  exact (@getTransactionPrice_text accepted page with_key (lit "500000000000")
           {| json := Ok feed_document |} feed_document
           (VObj [(lit "usd", VNum 4%float)]) (VNum 4%float) 4%float
           eq_refl eq_refl eq_refl eq_refl eq_refl eq_refl).
Defined.

(** No active note: the notice and no modal.  An active note: its page. *)
Lemma export_without_and_with_active_note_witness :
  (notices (snd (openModal nothing_open with_key)) = [lit "No active note to export"] /\
   opened (snd (openModal nothing_open with_key)) = []) /\
  fst (exportToHtml accepted with_key)
    = Ok (Some (fullHtml (lit "todo") rendered_once)).
Proof.
  split.
  - pose proof (proj1 (export_without_and_with_active_note nothing_open with_key)
                  eq_refl) as (_ & _ & Hn & Ho).
    split; [exact Hn | exact Ho].
  - exact (proj1 (proj2 (export_without_and_with_active_note accepted with_key)
                    note (lit "markdown of the note") eq_refl eq_refl)).
Defined.

(** A payload of one accented letter, U+00E9: one code unit, two bytes. *)
Lemma price_query_sends_code_unit_length_witness :
  is_ascii [233%N] = false /\ List.length [233%N] < utf8_length [233%N].
Proof.
  split; [reflexivity|].
  exact (proj2 (proj2 (proj2
           (price_query_sends_code_unit_length accepted [233%N] with_key)))
           eq_refl).
Defined.

(** The address an accepted submission returns is not empty. *)
Lemma error_sending_transaction_unreachable_witness :
  fst (uploadToArweave accepted page with_key)
    = Ok (lit "https://arweave.net/bNbA3TEQVL60xlgCcqdz4ZPHFZ711cZ3hmkpGttDt_U") /\
  truthy_str (lit "https://arweave.net/bNbA3TEQVL60xlgCcqdz4ZPHFZ711cZ3hmkpGttDt_U")
    = true.
Proof.
  split; [reflexivity|].
  exact (proj1 (error_sending_transaction_unreachable accepted)
           page with_key _ _ eq_refl).
Defined.

End Runs.

(** ** The settings object, [loadSettings] and the text area *)

Section Settings.

Lemma str_eqb_neq (a b : jsstring) : str_eqb a b = false <-> a <> b.
Proof.
  split.
  - intros H E. apply str_eqb_eq in E. congruence.
  - intros H. destruct (str_eqb a b) eqn:E; [|reflexivity].
    apply str_eqb_eq in E. contradiction.
Qed.

Lemma str_eqb_sym (a b : jsstring) : str_eqb a b = str_eqb b a.
Proof.
  destruct (str_eqb a b) eqn:E.
  - apply str_eqb_eq in E. subst. symmetry. apply str_eqb_refl.
  - symmetry. apply str_eqb_neq. apply str_eqb_neq in E. congruence.
Qed.

Lemma assoc_set_field (k k' : jsstring) (v : jsval) (fields : list (jsstring * jsval)) :
  assoc k' (set_field k v fields)
  = if str_eqb k' k then Some v else assoc k' fields.
Proof.
  induction fields as [|[k0 v0] rest IH]; simpl.
  - destruct (str_eqb k' k); reflexivity.
  - destruct (str_eqb k k0) eqn:E; simpl.
    + apply str_eqb_eq in E. subst k0. destruct (str_eqb k' k); reflexivity.
    + destruct (str_eqb k' k0) eqn:E0.
      * apply str_eqb_eq in E0. subst k0.
        rewrite str_eqb_sym, E. reflexivity.
      * exact IH.
Qed.

(** Writing a property leaves the own properties of the other names as
    they are; the name [__proto__] apart, the property written is an own
    property afterwards. *)
Lemma own_Set_property (o : object) (k k' : jsstring) (v : jsval) :
  k' <> proto_key ->
  assoc k' (own (Set_property o k v))
  = if str_eqb k' k then Some v else assoc k' (own o).
Proof.
  intros Hk'. unfold Set_property.
  destruct (str_eqb k proto_key && reaches_proto_accessor o) eqn:E.
  - apply andb_true_iff in E as [E _]. apply str_eqb_eq in E. subst k.
    apply str_eqb_neq in Hk'. rewrite Hk'.
    destruct (is_object_or_null v); reflexivity.
  - cbn [own]. apply assoc_set_field.
Qed.

Lemma own_assign_fields (fields : list (jsstring * jsval)) :
  forall (o : object) (k' : jsstring),
    k' <> proto_key ->
    NoDup (map fst fields) ->
    assoc k' (own (fold_left (fun o kv => Set_property o (fst kv) (snd kv)) fields o))
    = match assoc k' fields with
      | Some v => Some v
      | None => assoc k' (own o)
      end.
Proof.
  induction fields as [|[k v] rest IH]; intros o k' Hk' Hnd; [reflexivity|].
  cbn [fold_left fst snd assoc map] in *. inversion Hnd as [|? ? Hnotin Hnd']; subst.
  rewrite IH by assumption. rewrite own_Set_property by assumption.
  destruct (str_eqb k' k) eqn:E; [|reflexivity].
  apply str_eqb_eq in E. subst k'.
  destruct (assoc k rest) eqn:Ea; [|reflexivity].
  exfalso. apply Hnotin. clear - Ea.
  induction rest as [|[k0 v0] rest IH]; [discriminate|].
  simpl in *. destruct (str_eqb k k0) eqn:E.
  - apply str_eqb_eq in E. left. congruence.
  - right. apply IH, Ea.
Qed.

(** A source none of whose properties has the name leaves it alone. *)
Lemma own_assign_other_fields (fields : list (jsstring * jsval)) :
  forall (o : object) (k' : jsstring),
    k' <> proto_key ->
    Forall (fun kv => str_eqb k' (fst kv) = false) fields ->
    assoc k' (own (fold_left (fun o kv => Set_property o (fst kv) (snd kv)) fields o))
    = assoc k' (own o).
Proof.
  induction fields as [|[k v] rest IH]; intros o k' Hk' Hall; [reflexivity|].
  inversion Hall as [|? ? Hk Hrest]; subst. cbn [fold_left fst snd] in *.
  rewrite IH by assumption. rewrite own_Set_property by assumption.
  rewrite Hk. reflexivity.
Qed.

(** An index is written with digits: it is not the name [privateKey]. *)
Lemma decimal_not_privateKey (i : nat) :
  str_eqb (lit "privateKey") (decimal (Z.of_nat i)) = false.
Proof.
  unfold decimal. destruct (Z.of_nat i) as [|p|p]; [reflexivity| |];
    cbn [Z.to_int NilZero.string_of_int NilZero.string_of_uint];
    destruct (Pos.to_uint p); reflexivity.
Qed.

Lemma index_fields_not_privateKey (items : list jsval) :
  forall i, Forall (fun kv => str_eqb (lit "privateKey") (fst kv) = false)
                   (index_fields i items).
Proof.
  induction items as [|x rest IH]; intros i; constructor.
  - apply decimal_not_privateKey.
  - apply IH.
Qed.

(** X1. [loadSettings] on a stored document: every property of the
    document other than [__proto__] is an own property of the settings
    object with the stored value, the stored [privateKey] taking the place
    of the default; a document without [privateKey] leaves the default, the
    empty string, and adds no other property. *)
Theorem loadSettings_of_document (fields : list (jsstring * jsval)) (k : jsstring) :
  NoDup (map fst fields) ->
  k <> proto_key ->
  assoc k (own (loadSettings (VObj fields)))
  = match assoc k fields with
    | Some v => Some v
    | None => if str_eqb k (lit "privateKey") then Some (VStr []) else None
    end.
Proof.
  intros Hnd Hk. unfold loadSettings, Object_assign, assign_from.
  cbn [fold_left own_enumerable DEFAULT_SETTINGS_object].
  rewrite own_assign_fields by assumption.
  destruct (assoc k fields); [reflexivity|].
  cbn [fold_left fst snd]. rewrite own_Set_property by assumption.
  reflexivity.
Qed.

Lemma loadSettings_of_document_witness :
  assoc (lit "privateKey")
        (own (loadSettings (VObj [(lit "theme", VStr (lit "dark"));
                                  (lit "privateKey", VStr (lit "{}"))])))
  = Some (VStr (lit "{}")).
Proof.
  refine (@loadSettings_of_document
            [(lit "theme", VStr (lit "dark")); (lit "privateKey", VStr (lit "{}"))]
            (lit "privateKey") _ _).
  - repeat constructor; simpl; intuition discriminate.
  - discriminate.
Defined.

(** X2. [loadSettings] when [loadData] delivers no object: [null] (nothing
    saved yet), a number, a boolean, a string or an array.  The credential
    is the default, the empty string. *)
Theorem loadSettings_without_document (loaded : jsval) :
  (forall fields, loaded <> VObj fields) ->
  privateKey_of (loadSettings loaded) = VStr (privateKey DEFAULT_SETTINGS).
Proof.
  intros Hno. unfold privateKey_of, loadSettings, Object_assign, assign_from.
  cbn [fold_left].
  destruct loaded as [| |b|x|str|items|fields|n]; try reflexivity.
  - cbn [own_enumerable]. rewrite own_assign_other_fields;
      [reflexivity | discriminate | apply index_fields_not_privateKey].
  - cbn [own_enumerable]. rewrite own_assign_other_fields;
      [reflexivity | discriminate | apply index_fields_not_privateKey].
  - exfalso. apply (Hno fields). reflexivity.
Qed.

Lemma loadSettings_without_document_witness :
  privateKey_of (loadSettings VNull) = VStr [].
Proof.
  apply loadSettings_without_document. intros fields. discriminate.
Defined.

(** X3. Editing the text area: the settings object then holds the typed
    value as [privateKey] and every other property as before, and a
    document that the host reads back with that [privateKey] loads as the
    typed value. *)
Theorem edited_credential_is_kept (loaded : jsval) (value : jsstring) :
  let edited := set_privateKey value (loadSettings loaded) in
  privateKey_of edited = VStr value /\
  (forall k, k <> proto_key -> k <> lit "privateKey" ->
             assoc k (own edited) = assoc k (own (loadSettings loaded))) /\
  (forall reloaded,
      NoDup (map fst reloaded) ->
      assoc (lit "privateKey") reloaded = assoc (lit "privateKey") (own edited) ->
      privateKey_of (loadSettings (VObj reloaded)) = VStr value).
Proof.
  intros edited.
  assert (Hkey : assoc (lit "privateKey") (own edited) = Some (VStr value)).
  { unfold edited, set_privateKey. rewrite own_Set_property by discriminate.
    rewrite str_eqb_refl. reflexivity. }
  split; [unfold privateKey_of; rewrite Hkey; reflexivity|]. split.
  - intros k Hk Hk'. unfold edited, set_privateKey.
    rewrite own_Set_property by assumption.
    apply str_eqb_neq in Hk'. rewrite Hk'. reflexivity.
  - intros reloaded Hnd Hsame.
    unfold privateKey_of, loadSettings, Object_assign, assign_from.
    cbn [fold_left own_enumerable].
    rewrite own_assign_fields; [|discriminate|assumption].
    rewrite Hsame, Hkey. reflexivity.
Qed.

End Settings.

(** ** From the embed index to the inlined images *)

Section Images.

Variable w : World.

Lemma match_here_ci_canon (p s s' : jsstring) :
  map canonicalize s = map canonicalize s' ->
  match_here_ci p s = match_here_ci p s'.
Proof.
  revert s s'; induction p as [|x p IH]; intros s s' H; [reflexivity|].
  destruct s as [|y s], s' as [|y' s']; try discriminate H; [reflexivity|].
  simpl in H. injection H as Hy Hs. simpl. rewrite Hy. f_equal. apply IH, Hs.
Qed.

(** The pattern only sees the canonical form of the code units. *)
Lemma regex_search_canon (alts : list jsstring) (s s' : jsstring) :
  map canonicalize s = map canonicalize s' ->
  regex_search alts s = regex_search alts s'.
Proof.
  revert s'; induction s as [|y s IH]; intros s' H.
  - destruct s'; [reflexivity | discriminate H].
  - destruct s' as [|y' s']; [discriminate H|].
    cbn [regex_search]. f_equal.
    + clear IH. induction alts as [|p alts IHa]; [reflexivity|].
      cbn [existsb]. rewrite IHa. f_equal. apply match_here_ci_canon, H.
    + simpl in H. injection H as _ Hs. apply IH, Hs.
Qed.

(** A string whose lower-case form holds neither [k] nor U+0307 has the
    canonical form of its lower-case form. *)
Lemma toLowerCase_canon (s : jsstring) :
  forall t,
    toLowerCase s = t ->
    forallb (fun c => negb (c =? 107)%N && negb (c =? 775)%N) t = true ->
    map canonicalize s = map canonicalize t.
Proof.
  unfold toLowerCase.
  induction s as [|c s IH]; intros t Ht Hplain; [subst; reflexivity|].
  cbn [flat_map] in Ht. unfold lower_unit at 1 in Ht.
  destruct ((65 <=? c) && (c <=? 90))%N eqn:Eup.
  - subst t. cbn [app forallb] in Hplain.
    apply andb_true_iff in Hplain as [_ Hplain].
    cbn [map app]. rewrite <- (IH _ eq_refl Hplain). f_equal.
    apply andb_true_iff in Eup as [E1 E2].
    apply N.leb_le in E1. apply N.leb_le in E2. unfold canonicalize.
    replace ((97 <=? c) && (c <=? 122))%N with false
      by (symmetry; apply andb_false_iff; left; apply N.leb_gt; lia).
    replace ((97 <=? c + 32) && (c + 32 <=? 122))%N with true
      by (symmetry; apply andb_true_iff; split; apply N.leb_le; lia).
    lia.
  - destruct (c =? 8490)%N.
    { subst t. discriminate Hplain. }
    destruct (c =? 304)%N.
    { subst t. discriminate Hplain. }
    subst t. cbn [app forallb] in Hplain.
    apply andb_true_iff in Hplain as [_ Hplain].
    cbn [map app]. rewrite <- (IH _ eq_refl Hplain). reflexivity.
Qed.

(** X4. An extension that passes the image filter never reaches a
    property inherited from [Object.prototype]: [getMimeType] gives the
    entry of its lower-case form when the table has one and
    [application/octet-stream] otherwise, in both cases a string. *)
Theorem collected_extension_has_string_mime (extension : jsstring) :
  matches_image_regex extension = true ->
  getMimeType extension
  = match assoc (toLowerCase extension) mimeTypes with
    | Some entry => entry
    | None => VStr (lit "application/octet-stream")
    end /\
  exists mime, getMimeType extension = VStr mime.
Proof.
  intros Hmatch.
  destruct (assoc (toLowerCase extension) mimeTypes) as [entry|] eqn:Ea.
  - assert (exists mime, entry = VStr mime) as [mime ->].
    { revert Ea. generalize (toLowerCase extension). intros k. simpl.
      repeat (destruct (str_eqb k _); [intros [= <-]; eexists; reflexivity|]).
      discriminate. }
    rewrite (getMimeType_entry _ Ea). split; [reflexivity | eexists; reflexivity].
  - assert (Hd : getMimeType extension = VStr (lit "application/octet-stream")).
    { apply getMimeType_default; [exact Ea| |]; intros Hlow;
        pose proof (toLowerCase_canon extension Hlow eq_refl) as Hc;
        unfold matches_image_regex in Hmatch;
        rewrite (regex_search_canon _ _ _ Hc) in Hmatch;
        vm_compute in Hmatch; discriminate Hmatch. }
    rewrite Hd. split; [reflexivity | eexists; reflexivity].
Qed.

Lemma collected_extension_has_string_mime_witness :
  matches_image_regex (lit "svgz") = true /\
  getMimeType (lit "svgz") = VStr (lit "application/octet-stream").
Proof.
  split; [reflexivity|].
  exact (proj1 (@collected_extension_has_string_mime (lit "svgz") eq_refl)).
Defined.

Lemma collect_embed_invariant (P : TFile -> Prop) (currentNote : TFile)
    (all : list EmbedCache) :
  (forall embed file,
      In embed all -> truthy_str (link embed) = true ->
      getFirstLinkpathDest (host w) (getLinkpath (host w) (link embed))
                           (path currentNote) = Some file ->
      matches_image_regex (extension file) = true -> P file) ->
  forall (es : list EmbedCache) (acc : list TFile),
    incl es all -> Forall P acc ->
    Forall P (fold_left (collect_embed w currentNote) es acc) /\
    List.length (fold_left (collect_embed w currentNote) es acc)
      <= List.length acc + List.length es.
Proof.
  intros HP. induction es as [|e es IH]; intros acc Hin Hacc.
  - simpl. split; [exact Hacc | lia].
  - cbn [fold_left].
    assert (Hstep : Forall P (collect_embed w currentNote acc e) /\
                    List.length (collect_embed w currentNote acc e) <= S (List.length acc)).
    { unfold collect_embed.
      destruct (truthy_str (link e)) eqn:Et; [|split; [exact Hacc | lia]].
      destruct (getFirstLinkpathDest _ _ _) as [file|] eqn:Ed; [|split; [exact Hacc | lia]].
      destruct (matches_image_regex (extension file)) eqn:Em; [|split; [exact Hacc | lia]].
      split.
      - apply Forall_app. split; [exact Hacc|]. constructor; [|constructor].
        apply (HP e file); auto. apply Hin. left. reflexivity.
      - rewrite length_app. simpl. lia. }
    destruct Hstep as [Hf Hl].
    destruct (IH (collect_embed w currentNote acc e)) as [Hf' Hl']; [|exact Hf|].
    + intros x Hx. apply Hin. right. exact Hx.
    + split; [exact Hf'|]. simpl. lia.
Qed.

(** X5. [getImageAttachmentsFromCurrentNote] never throws and makes no
    request.  Every file it returns passed the image pattern and is the
    destination of an entry of the note's embed index with a non-empty
    link; no file comes from elsewhere. *)
Theorem collected_attachments_come_from_embeds (s : State) :
  exists files,
    fst (getImageAttachmentsFromCurrentNote w s) = Ok files /\
    requests (snd (getImageAttachmentsFromCurrentNote w s)) = requests s /\
    Forall
      (fun file =>
         matches_image_regex (extension file) = true /\
         exists currentNote cache_embeds embed,
           getActiveFile (host w) = Some currentNote /\
           getFileCache (host w) currentNote = Some {| embeds := Some cache_embeds |} /\
           In embed cache_embeds /\
           truthy_str (link embed) = true /\
           getFirstLinkpathDest (host w) (getLinkpath (host w) (link embed))
                                (path currentNote) = Some file)
      files.
Proof.
  unfold getImageAttachmentsFromCurrentNote.
  destruct (getActiveFile (host w)) as [currentNote|] eqn:Ea.
  2: { exists []. repeat split. constructor. }
  destruct (getFileCache (host w) currentNote) as [[[cache_embeds|]]|] eqn:Ec;
    try (exists []; repeat split; constructor).
  eexists. split; [reflexivity|]. split; [reflexivity|].
  apply (@collect_embed_invariant _ currentNote cache_embeds).
  - intros embed file Hin Ht Hd Hm. split; [exact Hm|].
    exists currentNote, cache_embeds, embed. auto.
  - apply incl_refl.
  - constructor.
Qed.

Lemma split_at_first_none (p s : jsstring) :
  includes p s = false -> split_at_first p s = None.
Proof.
  induction s as [|c s IH]; cbn [includes split_at_first]; intros H;
    apply orb_false_iff in H as [H1 H2]; rewrite H1; [reflexivity|].
  rewrite (IH H2). reflexivity.
Qed.

(** A pattern that does not occur: [replace] gives the string back. *)
Lemma replace_absent (s p r : jsstring) :
  includes p s = false -> replace s p r = s.
Proof. intros H. unfold replace. rewrite (split_at_first_none _ _ H). reflexivity. Qed.

(** X6. Images whose embed syntax [![[<name>]]] does not occur literally
    in the HTML (the embed is written with a folder or a size, say): each
    file is still read, in the order collected, and the HTML comes out as
    it went in. *)
Theorem unmatched_embed_leaves_html (images : list TFile) :
  forall (html html' : jsstring) (s s' : State),
    Forall (fun image => includes (embed_syntax (name image)) html = false) images ->
    inline_images w images html s = (Ok html', s') ->
    html' = html /\
    requests s' = requests s ++ map ReqReadBinary images /\
    notices s' = notices s.
Proof.
  induction images as [|image rest IH]; intros html html' s s' Hall Hrun.
  - simpl in Hrun. unfold ret in Hrun. injection Hrun as <- <-.
    rewrite app_nil_r. auto.
  - inversion Hall as [|? ? Habsent Hrest]; subst.
    cbn [inline_images] in Hrun. unfold bind, convertImageToBase64 in Hrun.
    unfold_js.
    destruct (vault_readBinary (host w) image) as [bytes|e]; [|discriminate Hrun].
    rewrite replace_absent in Hrun by exact Habsent.
    apply (IH _ _ _ _ Hrest) in Hrun as (-> & Hreq & Hnot).
    cbn [requests notices] in Hreq, Hnot.
    rewrite Hreq, Hnot, <- app_assoc. auto.
Qed.

End Images.

Lemma unmatched_embed_leaves_html_witness :
  fst (inline_images Example.accepted [Example.diagram]
         (lit "<p>![[assets/diagram.png]]</p>") Example.with_key)
  = Ok (lit "<p>![[assets/diagram.png]]</p>").
Proof.
  pose (run := inline_images Example.accepted [Example.diagram]
                 (lit "<p>![[assets/diagram.png]]</p>") Example.with_key).
  assert (Hrun : run = (fst run, snd run)) by (destruct run; reflexivity).
  destruct (fst run) as [html'|e] eqn:E; [|discriminate E].
  assert (Habsent : Forall (fun image =>
                              includes (embed_syntax (name image))
                                       (lit "<p>![[assets/diagram.png]]</p>") = false)
                           [Example.diagram])
    by (constructor; [reflexivity | constructor]).
  destruct (@unmatched_embed_leaves_html Example.accepted [Example.diagram]
              _ html' _ (snd run) Habsent Hrun) as [-> _].
  reflexivity.
Defined.

(** ** What [replace] puts in the place of the first occurrence *)

Section Replacement.

Lemma GetSubstitution_plain (matched before after template : jsstring) :
  dollar_free template = true ->
  GetSubstitution matched before after template = template.
Proof.
  induction template as [|c rest IH]; intros H; [reflexivity|].
  cbn [dollar_free forallb] in H. apply andb_true_iff in H as [Hc Hrest].
  apply negb_true_iff in Hc. cbn [GetSubstitution]. rewrite Hc.
  f_equal. apply IH, Hrest.
Qed.

Lemma starts_with_app (p rest : jsstring) : starts_with p (p ++ rest) = true.
Proof. induction p as [|x p IH]; [reflexivity|]. simpl. rewrite N.eqb_refl. exact IH. Qed.

Lemma skipn_length_app (p rest : jsstring) : skipn (List.length p) (p ++ rest) = rest.
Proof. induction p as [|x p IH]; [reflexivity | exact IH]. Qed.

(** The split is at the occurrence before which the pattern starts at no
    position. *)
Lemma split_at_first_app (p before after : jsstring) :
  (forall i, i < List.length before ->
             starts_with p (skipn i (before ++ p ++ after)) = false) ->
  split_at_first p (before ++ p ++ after) = Some (before, after).
Proof.
  induction before as [|c before IH]; intros Hfirst.
  - cbn [app]. destruct (p ++ after) eqn:E; cbn [split_at_first];
      rewrite <- E, starts_with_app, skipn_length_app; reflexivity.
  - cbn [app split_at_first].
    pose proof (Hfirst 0 ltac:(simpl; lia)) as H0. cbn [skipn app] in H0.
    rewrite H0. rewrite IH; [reflexivity|].
    intros i Hi. apply (Hfirst (S i)). simpl. lia.
Qed.

Lemma dollar_free_app (a b : jsstring) :
  dollar_free (a ++ b) = dollar_free a && dollar_free b.
Proof. apply forallb_app. Qed.

(** X7. The step of [openModal] on an image whose data URI and name hold
    no dollar sign: the first literal occurrence of [![[<name>]]] becomes
    the tag [<img src="<uri>" alt="<name>">], verbatim, and the text
    before and after it is kept. *)
Theorem first_embed_becomes_img (before after file_name src : jsstring) :
  dollar_free src = true ->
  dollar_free file_name = true ->
  (forall i, i < List.length before ->
             starts_with (embed_syntax file_name)
                         (skipn i (before ++ embed_syntax file_name ++ after)) = false) ->
  replace (before ++ embed_syntax file_name ++ after)
          (embed_syntax file_name) (img_tag src file_name)
  = before ++ img_tag src file_name ++ after.
Proof.
  intros Hsrc Hname Hfirst. unfold replace.
  rewrite (split_at_first_app _ _ _ Hfirst).
  rewrite GetSubstitution_plain; [reflexivity|].
  unfold img_tag. rewrite !dollar_free_app, Hsrc, Hname. reflexivity.
Qed.

Lemma first_embed_becomes_img_witness :
  replace (lit "<p>![[a.png]]</p>") (embed_syntax (lit "a.png"))
          (img_tag (lit "data:image/png;base64,iVBORw==") (lit "a.png"))
  = lit "<p>" ++ img_tag (lit "data:image/png;base64,iVBORw==") (lit "a.png")
    ++ lit "</p>".
Proof.
  refine (@first_embed_becomes_img (lit "<p>") (lit "</p>") (lit "a.png")
            (lit "data:image/png;base64,iVBORw==") eq_refl eq_refl _).
  intros i Hi.
  destruct i as [|[|[|i]]]; [reflexivity | reflexivity | reflexivity |].
  simpl in Hi. lia.
Defined.

End Replacement.

(** ** Outcomes of the network operations *)

Section Outcomes.

Variable w : World.

(** X8. [getTransactionPrice] either returns a text that starts with
    [Transaction cost: ~] and shows no notice, or throws and shows exactly
    one notice, which names the error it throws.  It submits nothing and
    opens no modal. *)
Theorem getTransactionPrice_outcome (payload : jsstring) (s : State) :
  let s' := snd (getTransactionPrice w payload s) in
  match fst (getTransactionPrice w payload s) with
  | Ok text =>
      notices s' = notices s /\
      starts_with (lit "Transaction cost: ~") text = true
  | Throw e =>
      notices s'
      = notices s ++ [lit "Error calculating transaction price: " ++ error_toString e]
  end /\
  submissions (requests s') = submissions (requests s) /\
  opened s' = opened s.
Proof.
  assert (Hcount : forall q1 q2,
             submissions ((requests s ++ [ReqGetPrice q1]) ++ [ReqUrl q2])
             = submissions (requests s)).
  { intros. unfold submissions. rewrite !filter_app. cbn [filter is_post].
    rewrite !app_nil_r. reflexivity. }
  assert (Hcount1 : forall q1,
             submissions (requests s ++ [ReqGetPrice q1]) = submissions (requests s)).
  { intros. unfold submissions. rewrite !filter_app. cbn [filter is_post].
    rewrite !app_nil_r. reflexivity. }
  unfold getTransactionPrice, getArPriceInUSD. unfold_js.
  destruct (transactions_getPrice (arweave w) (List.length payload)) as [winston|e];
    cbn [fst snd notices requests opened]; [|auto].
  destruct (requestUrl (host w) price_feed_url) as [response|e];
    cbn [fst snd notices requests opened]; [|auto].
  destruct (json response) as [feed|e];
    cbn [fst snd notices requests opened]; [|auto].
  destruct (get_property feed (lit "arweave")) as [coin|e];
    cbn [fst snd notices requests opened]; [|auto].
  destruct (get_property coin (lit "usd")) as [usd|e];
    cbn [fst snd notices requests opened]; [|auto].
  destruct (Number (platform w) usd) as [rate|e];
    cbn [fst snd notices requests opened Number]; auto.
Qed.

(** X9. [getBalanceByPrivateKey] returns the balance of the address that
    the client derives from the stored credential, converted by the
    client, after asking for the address and then for its balance, and
    shows no notice; or it throws and shows exactly one notice, which
    names the error it throws. *)
Theorem getBalanceByPrivateKey_outcome (s : State) :
  let s' := snd (getBalanceByPrivateKey w s) in
  match fst (getBalanceByPrivateKey w s) with
  | Ok balance =>
      notices s' = notices s /\
      exists wallet address winston,
        JSON_parse (platform w) (privateKey (settings s)) = Ok wallet /\
        wallets_getAddress (arweave w) wallet = Ok address /\
        wallets_getBalance (arweave w) address = Ok winston /\
        balance = ar_winstonToAr (arweave w) winston /\
        requests s' = requests s ++ [ReqGetAddress; ReqGetBalance address]
  | Throw e =>
      notices s' = notices s ++ [lit "Error getting balance: " ++ error_toString e]
  end.
Proof.
  unfold getBalanceByPrivateKey. unfold_js.
  destruct (JSON_parse (platform w) (privateKey (settings s))) as [wallet|e] eqn:Ep;
    cbn [fst snd notices]; [|reflexivity].
  destruct (wallets_getAddress (arweave w) wallet) as [address|e] eqn:Ea;
    cbn [fst snd notices]; [|reflexivity].
  destruct (wallets_getBalance (arweave w) address) as [winston|e] eqn:Eb;
    cbn [fst snd notices requests]; [|reflexivity].
  split; [reflexivity|].
  exists wallet, address, winston. rewrite <- app_assoc. auto.
Qed.

(** X10. One call of [uploadToArweave] submits at most one transaction.
    What it submits is what signing returned for the transaction built
    from the payload and the parsed credential, with the tag
    [Content-Type: text/html] added before signing; and it returns only
    after a submission. *)
Theorem uploadToArweave_submits_once (html : jsstring) (s : State) :
  exists added,
    requests (snd (uploadToArweave w html s)) = requests s ++ added /\
    submissions added <= 1 /\
    (forall t,
        In (ReqPost t) added ->
        exists wallet transaction,
          JSON_parse (platform w) (privateKey (settings s)) = Ok wallet /\
          createTransaction (arweave w) html wallet = Ok transaction /\
          transactions_sign (arweave w)
            (addTag transaction (lit "Content-Type") (lit "text/html")) wallet
          = Ok t) /\
    (forall url, fst (uploadToArweave w html s) = Ok url -> submissions added = 1).
Proof.
  unfold uploadToArweave. unfold_js.
  destruct (JSON_parse (platform w) (privateKey (settings s))) as [wallet|e] eqn:Ep;
    cbn [fst snd requests].
  2: { exists []. rewrite app_nil_r. repeat split; auto.
       - intros t [].
       - discriminate. }
  destruct (createTransaction (arweave w) html wallet) as [tx|e] eqn:Ec;
    cbn [fst snd requests].
  2: { eexists [_]. repeat split; auto.
       - intros t [H|[]]. discriminate H.
       - discriminate. }
  destruct (transactions_sign (arweave w) _ wallet) as [signed|e] eqn:Es;
    cbn [fst snd requests].
  2: { eexists [_; _]. rewrite <- app_assoc. repeat split; auto.
       - intros t [H|[H|[]]]; discriminate H.
       - discriminate. }
  assert (Hposted : forall t,
             In (ReqPost t)
                [ReqCreateTransaction html;
                 ReqSign (addTag tx (lit "Content-Type") (lit "text/html"));
                 ReqPost signed] ->
             exists wallet0 transaction,
               Ok wallet = Ok wallet0 /\
               createTransaction (arweave w) html wallet0 = Ok transaction /\
               transactions_sign (arweave w)
                 (addTag transaction (lit "Content-Type") (lit "text/html")) wallet0
               = Ok t).
  { intros t [H|[H|[H|[]]]]; try discriminate H.
    injection H as <-. exists wallet, tx. auto. }
  exists [ReqCreateTransaction html;
          ReqSign (addTag tx (lit "Content-Type") (lit "text/html"));
          ReqPost signed].
  destruct (transactions_post (arweave w) signed) as [response|e] eqn:Eq;
    cbn [fst snd requests].
  2: { rewrite <- !app_assoc. repeat split; auto; discriminate. }
  destruct ((status response =? 200) || (status response =? 202))%Z;
    cbn [fst snd requests]; rewrite <- !app_assoc; repeat split; auto;
    discriminate.
Qed.

(** X11. Once the credential has parsed, a call of [uploadToArweave] that
    throws shows exactly one notice, which names the error it throws, and
    a call that returns shows none. *)
Theorem uploadToArweave_failure_notice (html : jsstring) (s : State) (wallet : jsval) :
  JSON_parse (platform w) (privateKey (settings s)) = Ok wallet ->
  let s' := snd (uploadToArweave w html s) in
  match fst (uploadToArweave w html s) with
  | Ok _ => notices s' = notices s
  | Throw e =>
      notices s' = notices s ++ [lit "Error uploading to Arweave: " ++ error_toString e]
  end.
Proof.
  intros Hparse. unfold uploadToArweave. unfold_js. rewrite Hparse.
  destruct (createTransaction (arweave w) html wallet) as [tx|e];
    cbn [fst snd notices]; [|reflexivity].
  destruct (transactions_sign (arweave w) _ wallet) as [signed|e];
    cbn [fst snd notices]; [|reflexivity].
  destruct (transactions_post (arweave w) signed) as [response|e];
    cbn [fst snd notices]; [|reflexivity].
  destruct ((status response =? 200) || (status response =? 202))%Z; reflexivity.
Qed.

End Outcomes.

Lemma uploadToArweave_failure_notice_witness :
  notices (snd (uploadToArweave Example.rejected Example.page Example.with_key))
  = [lit "Error uploading to Arweave: Error: Transaction failed with status 500"].
Proof.
  exact (@uploadToArweave_failure_notice Example.rejected Example.page
           Example.with_key (VObj []) eq_refl).
Defined.

(** ** Opening the modal and building the dialog *)

Section Dialog.

Variable w : World.

Lemma exportToHtml_frame (s : State) :
  opened (snd (exportToHtml w s)) = opened s /\
  notices (snd (exportToHtml w s)) = notices s.
Proof.
  unfold exportToHtml. destruct (getActiveFile (host w)); [|split; reflexivity].
  unfold_js. destruct (vault_read (host w) t); split; reflexivity.
Qed.

Lemma getImageAttachments_frame (s : State) :
  opened (snd (getImageAttachmentsFromCurrentNote w s)) = opened s /\
  requests (snd (getImageAttachmentsFromCurrentNote w s)) = requests s.
Proof.
  unfold getImageAttachmentsFromCurrentNote.
  destruct (getActiveFile (host w)) as [currentNote|]; [|split; reflexivity].
  destruct (getFileCache (host w) currentNote) as [[[cache_embeds|]]|];
    split; reflexivity.
Qed.

Lemma inline_images_frame (images : list TFile) :
  forall (html : jsstring) (s : State),
    opened (snd (inline_images w images html s)) = opened s /\
    notices (snd (inline_images w images html s)) = notices s.
Proof.
  induction images as [|image rest IH]; intros html s; [split; reflexivity|].
  cbn [inline_images]. unfold bind, convertImageToBase64. unfold_js.
  destruct (vault_readBinary (host w) image) as [bytes|e]; [|split; reflexivity].
  destruct (IH (replace html (embed_syntax (name image))
                  (img_tag (lit "data:" ++ ToString (platform w) (getMimeType (extension image))
                            ++ lit ";base64," ++ arrayBufferToBase64 (host w) bytes)
                           (name image)))
               {| settings := settings s; notices := notices s; opened := opened s;
                  elements := elements s; contentEl := contentEl s;
                  requests := requests s ++ [ReqReadBinary image] |}) as [Ho Hn].
  split; [exact Ho | exact Hn].
Qed.

(** What a run of [getTransactionPrice] leaves alone, the request it
    starts with and the form of what it returns. *)
Lemma getTransactionPrice_frame (payload : jsstring) (s : State) :
  let r := getTransactionPrice w payload s in
  opened (snd r) = opened s /\
  elements (snd r) = elements s /\
  (exists later,
      requests (snd r) = requests s ++ ReqGetPrice (List.length payload) :: later) /\
  (forall text, fst r = Ok text ->
                starts_with (lit "Transaction cost: ~") text = true).
Proof.
  unfold getTransactionPrice, getArPriceInUSD. unfold_js.
  destruct (transactions_getPrice (arweave w) (List.length payload)) as [winston|e];
    cbn [fst snd opened elements requests].
  2: { repeat split; [eexists; reflexivity | discriminate]. }
  destruct (requestUrl (host w) price_feed_url) as [response|e];
    cbn [fst snd opened elements requests].
  2: { repeat split; [rewrite <- app_assoc; eexists; reflexivity | discriminate]. }
  destruct (json response) as [feed|e];
    cbn [fst snd opened elements requests].
  2: { repeat split; [rewrite <- app_assoc; eexists; reflexivity | discriminate]. }
  destruct (get_property feed (lit "arweave")) as [coin|e];
    cbn [fst snd opened elements requests].
  2: { repeat split; [rewrite <- app_assoc; eexists; reflexivity | discriminate]. }
  destruct (get_property coin (lit "usd")) as [usd|e];
    cbn [fst snd opened elements requests].
  2: { repeat split; [rewrite <- app_assoc; eexists; reflexivity | discriminate]. }
  destruct (Number (platform w) usd) as [rate|e];
    cbn [fst snd opened elements requests Number].
  2: { repeat split; [rewrite <- app_assoc; eexists; reflexivity | discriminate]. }
  repeat split; [rewrite <- app_assoc; eexists; reflexivity |].
  intros text [= <-]. reflexivity.
Qed.

Lemma exportToHtml_result (s s1 : State) (exported : option jsstring) :
  exportToHtml w s = (Ok exported, s1) ->
  match exported with
  | None => getActiveFile (host w) = None
  | Some html => truthy_str html = true
  end.
Proof.
  unfold exportToHtml. destruct (getActiveFile (host w)) as [activeFile|].
  - unfold_js. destruct (vault_read (host w) activeFile); [|discriminate].
    intros [= <- _]. reflexivity.
  - unfold ret. intros [= <- _]. reflexivity.
Qed.

(** X12. [openModal] opens at most one modal, and none when it throws.
    The document the modal holds is what the loop over the collected
    images made of the exported HTML: the result of [inline_images] on the
    files of [getImageAttachmentsFromCurrentNote] and the page of
    [exportToHtml].  Its price text is what [getTransactionPrice] returned
    for that very document: it starts with [Transaction cost: ~] and was
    asked for with the length of the document after the images were
    inlined.  Without a modal [openModal] returns normally only when no
    note is active, after showing the notice. *)
Theorem openModal_outcome (s : State) :
  let r := openModal w s in
  match fst r with
  | Throw _ => opened (snd r) = opened s
  | Ok _ =>
      (getActiveFile (host w) = None /\
       opened (snd r) = opened s /\
       notices (snd r) = notices s ++ [lit "No active note to export"]) \/
      (exists m html images s2 s3,
          opened (snd r) = opened s ++ [m] /\
          In (ReqGetPrice (List.length (data m))) (requests (snd r)) /\
          starts_with (lit "Transaction cost: ~") (priceInUSD m) = true /\
          fst (exportToHtml w s) = Ok (Some html) /\
          getImageAttachmentsFromCurrentNote w (snd (exportToHtml w s))
            = (Ok images, s2) /\
          inline_images w images html s2 = (Ok (data m), s3) /\
          fst (getTransactionPrice w (data m) s3) = Ok (priceInUSD m))
  end.
Proof.
  unfold openModal, bind.
  pose proof (exportToHtml_frame s) as [Ho1 Hn1].
  destruct (exportToHtml w s) as [[exported|e] s1] eqn:E1; cbn [fst snd] in *;
    [|exact Ho1].
  pose proof (@exportToHtml_result s s1 exported E1) as Hres.
  destruct exported as [html|].
  2: { unfold Notice. cbn [fst snd opened notices]. left. rewrite Hn1. auto. }
  rewrite Hres.
  pose proof (getImageAttachments_frame s1) as [Ho2 _].
  destruct (getImageAttachmentsFromCurrentNote w s1) as [[images|e] s2] eqn:E2;
    cbn [fst snd] in *; [|congruence].
  pose proof (inline_images_frame images html s2) as [Ho3 _].
  destruct (inline_images w images html s2) as [[html'|e] s3] eqn:E3;
    cbn [fst snd] in *; [|congruence].
  pose proof (getTransactionPrice_frame html' s3) as (Ho4 & _ & [later Hreq] & Htext).
  destruct (getTransactionPrice w html' s3) as [[price|e] s4] eqn:E4;
    cbn [fst snd] in *; [|congruence].
  right. exists {| priceInUSD := price; data := html' |}, html, images, s2, s3.
  unfold open. cbn [fst snd opened requests data priceInUSD].
  split; [congruence|]. split.
  { rewrite Hreq. apply in_or_app. right. left. reflexivity. }
  split; [apply Htext; reflexivity|].
  split; [reflexivity|]. split; [reflexivity|]. split; [exact E3|].
  rewrite E4. reflexivity.
Qed.

(** Every modal of [openModal] is built from what [getTransactionPrice]
    returned for the document it holds. *)
Lemma openModal_new_modal (s : State) :
  opened (snd (openModal w s)) = opened s \/
  exists price html' s3 s4,
    getTransactionPrice w html' s3 = (Ok price, s4) /\
    opened (snd (openModal w s)) = opened s ++ [{| priceInUSD := price; data := html' |}].
Proof.
  unfold openModal, bind.
  pose proof (exportToHtml_frame s) as [Ho1 _].
  destruct (exportToHtml w s) as [[[html|]|e] s1]; cbn [fst snd] in *;
    [|left; exact Ho1|left; exact Ho1].
  destruct (truthy_str html); [|left; exact Ho1].
  pose proof (getImageAttachments_frame s1) as [Ho2 _].
  destruct (getImageAttachmentsFromCurrentNote w s1) as [[images|e] s2];
    cbn [fst snd] in *; [|left; congruence].
  pose proof (inline_images_frame images html s2) as [Ho3 _].
  destruct (inline_images w images html s2) as [[html'|e] s3];
    cbn [fst snd] in *; [|left; congruence].
  pose proof (getTransactionPrice_frame html' s3) as (Ho4 & _).
  destruct (getTransactionPrice w html' s3) as [[price|e] s4] eqn:Ep;
    cbn [fst snd] in *; [|left; congruence].
  right. exists price, html', s3, s4. split; [exact Ep|].
  unfold open. cbn [snd opened]. congruence.
Qed.

Lemma getBalanceByPrivateKey_frame (s : State) :
  let r := getBalanceByPrivateKey w s in
  elements (snd r) = elements s /\ contentEl (snd r) = contentEl s /\
  opened (snd r) = opened s /\
  match fst r with
  | Ok _ => notices (snd r) = notices s
  | Throw e =>
      notices (snd r) = notices s ++ [lit "Error getting balance: " ++ error_toString e]
  end.
Proof.
  unfold getBalanceByPrivateKey. unfold_js.
  destruct (JSON_parse (platform w) (privateKey (settings s))) as [wallet|e];
    cbn [fst snd notices elements contentEl opened]; [|auto].
  destruct (wallets_getAddress (arweave w) wallet) as [address|e];
    cbn [fst snd notices elements contentEl opened]; [|auto].
  destruct (wallets_getBalance (arweave w) address) as [winston|e];
    cbn [fst snd notices elements contentEl opened]; auto.
Qed.

(** [onOpen] after the content was emptied: a failed balance lookup ends
    it; otherwise the three elements are created one after the other. *)
Lemma onOpen_run (modal : ArweaveUploaderModal) (s : State) :
  let s0 := snd (empty s) in
  let n := List.length (elements s) in
  match getBalanceByPrivateKey w s0 with
  | (Throw e, s1) => onOpen w modal s = (Throw e, s1)
  | (Ok balance, s1) =>
      fst (onOpen w modal s) = Ok (n + 2) /\
      elements (snd (onOpen w modal s)) = elements s ++ dialog_elements modal balance /\
      contentEl (snd (onOpen w modal s)) = [n; n + 1; n + 2] /\
      notices (snd (onOpen w modal s)) = notices s1
  end.
Proof.
  intros s0 n.
  pose proof (getBalanceByPrivateKey_frame s0) as (Hel & Hch & _).
  unfold onOpen, bind. change (empty s) with (Ok tt, s0). cbv beta iota.
  destruct (getBalanceByPrivateKey w s0) as [[balance|e] s1]; [|reflexivity].
  cbn [fst snd] in Hel, Hch.
  unfold createEl. cbn [fst snd elements contentEl notices].
  rewrite Hel, Hch. unfold s0, n. cbn [snd empty elements contentEl].
  rewrite !length_app. cbn [List.length app].
  rewrite <- !app_assoc. cbn [app].
  repeat split; rewrite <- Nat.add_assoc; reflexivity.
Qed.


Lemma starts_with_app_both (a p t : jsstring) :
  starts_with (a ++ p) (a ++ t) = starts_with p t.
Proof. induction a as [|x a IH]; [reflexivity|]. simpl. rewrite N.eqb_refl. exact IH. Qed.

(** X14. The modal that [openModal] opens carries the whole sentence of
    [getTransactionPrice] as its price, and [onOpen] puts its own words
    before it: the second paragraph of the dialog starts with
    [Transaction cost: Transaction cost: ~]. *)
Theorem dialog_repeats_the_cost_words (s s1 : State) (m : ArweaveUploaderModal) :
  opened (snd (openModal w s)) = opened s ++ [m] ->
  match fst (onOpen w m s1) with
  | Ok _ =>
      exists paragraph,
        nth_error (elements (snd (onOpen w m s1))) (List.length (elements s1) + 1)
        = Some paragraph /\
        starts_with (lit "Transaction cost: Transaction cost: ~")
                    (textContent paragraph) = true
  | Throw _ => True
  end.
Proof.
  intros Hopened.
  assert (Hprice : starts_with (lit "Transaction cost: ~") (priceInUSD m) = true).
  { destruct (openModal_new_modal s) as [Hsame | (price & html' & s3 & s4 & Hp & Hnew)].
    - rewrite Hsame in Hopened. apply (f_equal (@List.length _)) in Hopened.
      rewrite length_app in Hopened. simpl in Hopened. lia.
    - rewrite Hnew in Hopened. apply app_inj_tail in Hopened as [_ <-].
      cbn [priceInUSD].
      pose proof (getTransactionPrice_frame html' s3) as (_ & _ & _ & Htext).
      apply Htext. rewrite Hp. reflexivity. }
  pose proof (onOpen_run m s1) as Hrun. cbv zeta in Hrun.
  destruct (getBalanceByPrivateKey w (snd (empty s1))) as [[balance|e] s2].
  - destruct Hrun as (Hfst & Helems & _). rewrite Hfst, Helems.
    eexists. split.
    + rewrite nth_error_app2 by lia.
      replace (List.length (elements s1) + 1 - List.length (elements s1)) with 1 by lia.
      reflexivity.
    + cbn [textContent].
      change (lit "Transaction cost: Transaction cost: ~")
        with (lit "Transaction cost: " ++ lit "Transaction cost: ~").
      rewrite starts_with_app_both. exact Hprice.
  - rewrite Hrun. exact I.
Qed.

End Dialog.

Lemma dialog_repeats_the_cost_words_witness :
  exists paragraph,
    nth_error (elements (snd (onOpen Example.accepted Example.dialog Example.with_key))) 1
    = Some paragraph /\
    starts_with (lit "Transaction cost: Transaction cost: ~")
                (textContent paragraph) = true.
Proof.
  exact (@dialog_repeats_the_cost_words Example.accepted Example.with_key
           Example.with_key
           {| priceInUSD := lit "Transaction cost: ~0.5 AR (2$)";
              data := fullHtml (lit "todo") Example.rendered_once |}
           eq_refl).
Defined.

(** ** The price feed, [getArPriceInUSD] *)

Section Feed.

Variable w : World.

Lemma nan_mul (x : float) : (nan * x)%float = nan.
Proof.
  apply Prim2SF_inj. rewrite mul_spec.
  replace (Prim2SF nan) with S754_nan by reflexivity. reflexivity.
Qed.

Lemma nan_div (x : float) : (nan / x)%float = nan.
Proof.
  apply Prim2SF_inj. rewrite div_spec.
  replace (Prim2SF nan) with S754_nan by reflexivity. reflexivity.
Qed.

(** X15. A feed whose [arweave] entry is an object without [usd]: no
    error is raised and no notice is shown; the rate is [undefined], the
    product is not a number, and the estimate is printed from NaN. *)
Theorem missing_usd_gives_NaN_estimate (payload : jsstring) (s : State)
    (winston : jsstring) (response : RequestUrlResponse) (feed : jsval)
    (coin : list (jsstring * jsval)) :
  transactions_getPrice (arweave w) (List.length payload) = Ok winston ->
  requestUrl (host w) price_feed_url = Ok response ->
  json response = Ok feed ->
  get_property feed (lit "arweave") = Ok (VObj coin) ->
  assoc (lit "usd") coin = None ->
  fst (getTransactionPrice w payload s)
    = Ok (price_text (platform w) (ar_winstonToAr (arweave w) winston) nan) /\
  notices (snd (getTransactionPrice w payload s)) = notices s.
Proof.
  intros Hprice Hurl Hjson Hcoin Husd.
  unfold getTransactionPrice, getArPriceInUSD. unfold_js.
  rewrite Hprice, Hurl, Hjson, Hcoin.
  cbn [get_property]. unfold object_get. rewrite Husd.
  change (existsb (str_eqb (lit "usd")) Object_prototype_names) with false.
  cbn [Number fst snd notices]. rewrite !nan_mul.
  change (Math_round nan) with nan. rewrite nan_div.
  split; reflexivity.
Qed.

(** X16. A feed document that is an object without an [arweave] entry:
    reading [usd] of [undefined] throws a TypeError, which
    [getTransactionPrice] shows in its notice and throws again. *)
Theorem missing_arweave_entry_is_reported (payload : jsstring) (s : State)
    (winston : jsstring) (response : RequestUrlResponse)
    (fields : list (jsstring * jsval)) :
  transactions_getPrice (arweave w) (List.length payload) = Ok winston ->
  requestUrl (host w) price_feed_url = Ok response ->
  json response = Ok (VObj fields) ->
  assoc (lit "arweave") fields = None ->
  let e := TypeError (lit "Cannot read properties of undefined (reading 'usd')") in
  fst (getTransactionPrice w payload s) = Throw e /\
  notices (snd (getTransactionPrice w payload s))
  = notices s ++ [lit "Error calculating transaction price: " ++ error_toString e].
Proof.
  intros Hprice Hurl Hjson Hnone e.
  unfold getTransactionPrice, getArPriceInUSD. unfold_js.
  rewrite Hprice, Hurl, Hjson.
  cbn [get_property]. unfold object_get. rewrite Hnone.
  change (existsb (str_eqb (lit "arweave")) Object_prototype_names) with false.
  split; reflexivity.
Qed.

End Feed.

Lemma missing_usd_gives_NaN_estimate_witness :
  fst (getTransactionPrice Example.no_quote Example.page Example.with_key)
  = Ok (lit "Transaction cost: ~0.5 AR (NaN$)").
Proof.
  exact (proj1 (@missing_usd_gives_NaN_estimate Example.no_quote Example.page
                  Example.with_key (lit "500000000000")
                  {| json := Ok (VObj [(lit "arweave", VObj [])]) |}
                  (VObj [(lit "arweave", VObj [])]) []
                  eq_refl eq_refl eq_refl eq_refl eq_refl)).
Defined.

Lemma missing_arweave_entry_is_reported_witness :
  let w := {| host := Example.with_feed (host Example.accepted) (VObj []);
              arweave := arweave Example.accepted;
              platform := platform Example.accepted |} in
  notices (snd (getTransactionPrice w Example.page Example.with_key))
  = [lit "Error calculating transaction price: TypeError: Cannot read properties of undefined (reading 'usd')"].
Proof.
  exact (proj2 (@missing_arweave_entry_is_reported
                  {| host := Example.with_feed (host Example.accepted) (VObj []);
                     arweave := arweave Example.accepted;
                     platform := platform Example.accepted |}
                  Example.page Example.with_key (lit "500000000000")
                  {| json := Ok (VObj []) |} []
                  eq_refl eq_refl eq_refl eq_refl)).
Defined.

(** ** The command and the click *)

Section Command.

Variable w : World.

(** X17. [checkCallback] never throws and answers whether a note is
    active.  Probing it ([checking]) and calling it without an active note
    change nothing.  When it runs the export and the note cannot be read,
    it still answers [true]: no notice is shown and no modal is opened. *)
Theorem checkCallback_outcome (checking : bool) (s : State) :
  fst (checkCallback w checking s)
  = Ok (match getActiveFile (host w) with Some _ => true | None => false end) /\
  (checking = true -> snd (checkCallback w checking s) = s) /\
  (getActiveFile (host w) = None -> snd (checkCallback w checking s) = s) /\
  (forall activeFile e,
      getActiveFile (host w) = Some activeFile ->
      vault_read (host w) activeFile = Throw e ->
      notices (snd (checkCallback w false s)) = notices s /\
      opened (snd (checkCallback w false s)) = opened s /\
      requests (snd (checkCallback w false s)) = requests s ++ [ReqRead activeFile]).
Proof.
  unfold checkCallback.
  destruct (getActiveFile (host w)) as [activeFile|] eqn:Ea.
  - split; [destruct checking; reflexivity|].
    split; [intros ->; reflexivity|]. split; [discriminate|].
    intros activeFile' e [= <-] Hread.
    unfold not_awaited, openModal, exportToHtml. unfold_js.
    rewrite Ea, Hread. repeat split.
  - split; [reflexivity|]. split; [reflexivity|]. split; [reflexivity|].
    intros activeFile e H. discriminate H.
Qed.




End Command.


(** ** The MIME lookup behind the image filter *)

Section MimeLookup.




End MimeLookup.

